(** * Commitment capture core of the collections voice bot (src/bot.py)

    A shallow embedding of [CollectionProcessor], of the start-up part of
    [main] and of its two transport event handlers.  The program is one
    sequential Python process around three external collaborators: the
    pipecat conversation context, the Firestore client and the pipecat
    language-model service.  Their calls are modelled as primitive
    operations of a state-and-exception monad over a [World]; every call
    is also appended to a chronological [trace], so that which calls
    happen, with which arguments and in which order, can be read off that
    trace.  What a store does with an update and whether a call on the
    language model returns are left open (type classes); the Firestore
    client's own refusal of what it cannot encode is modelled in front of
    any store.

    Python strings are modelled as Rocq byte strings (UTF-8); the rupee sign
    of the prompts is therefore three bytes long. *)

From Stdlib Require Import ZArith String Ascii DecimalString.
From Stdlib Require Import PrimFloat FloatOps SpecFloat.
From stdpp Require Import gmap strings list.

(* ===================================================================== *)
(** ** Python values and exceptions *)
(* ===================================================================== *)

(** The values a JSON-decoded tool argument can take: [json.loads] yields
    [None], a [bool], an [int], a [float] or a [str], or else a list or a
    dict.  The bot only formats these values and passes them on, so a list
    or dict is kept as what [str] makes of it. *)
Inductive pyvalue : Type :=
| PyNone
| PyBool (b : bool)
| PyInt (z : Z)
| PyFloat (x : float)
| PyStr (s : string)
| PyContainer (shown : string).

Inductive exn : Type :=
| KeyError (key : string)
| TypeError
| ValueError
| OverflowError
| StoreError (reason : string)
| ServiceError (reason : string).

(** What a Python call does: it returns a value or raises. *)
Inductive outcome (A : Type) : Type :=
| Returned (a : A)
| Raised (e : exn).
Arguments Returned {A} a.
Arguments Raised {A} e.

(** [repr] of a float (the shortest decimal string that reads back as the
    same double) belongs to the interpreter; the bot reaches it only when
    the model sends a number where the schema asks for a date string. *)
Class PyRuntime : Type := { float_repr : float -> string }.

(* --------------------------------------------------------------------- *)
(** *** The format specification [,.2f] *)

Definition decimal_digits (n : N) : string :=
  NilZero.string_of_uint (N.to_uint n).

(** Digits in reverse order, a comma after every third one. *)
Fixpoint group_thousands_rev (ds : list ascii) (k : nat) : list ascii :=
  match ds with
  | [] => []
  | d :: rest =>
      match k with
      | 3 => ","%char :: d :: group_thousands_rev rest 1
      | _ => d :: group_thousands_rev rest (S k)
      end
  end.

Definition group_thousands (s : string) : string :=
  string_of_list_ascii
    (rev (group_thousands_rev (rev (list_ascii_of_string s)) 0)).

(** [num / den] rounded to the nearest integer, ties to even ([den > 0]). *)
Definition round_half_even (num den : Z) : Z :=
  let q := (num / den)%Z in
  match (2 * (num mod den) ?= den)%Z with
  | Lt => q
  | Gt => (q + 1)%Z
  | Eq => if Z.even q then q else (q + 1)%Z
  end.

(** [m * 2^e] in hundredths, correctly rounded. *)
Definition hundredths (m : positive) (e : Z) : Z :=
  if (0 <=? e)%Z then (Z.pos m * 2 ^ e * 100)%Z
  else round_half_even (Z.pos m * 100) (2 ^ (- e)).

Definition fixed_2 (h : Z) : string :=
  group_thousands (decimal_digits (Z.to_N (h / 100)))
  +:+ "." +:+ decimal_digits (Z.to_N (h mod 100 / 10))
  +:+ decimal_digits (Z.to_N (h mod 10)).

Definition sign_prefix (negative : bool) : string :=
  if negative then "-" else "".

Definition format_spec_float (x : spec_float) : string :=
  match x with
  | S754_nan => "nan"
  | S754_infinity s => sign_prefix s +:+ "inf"
  | S754_zero s => sign_prefix s +:+ fixed_2 0
  | S754_finite s m e => sign_prefix s +:+ fixed_2 (hundredths m e)
  end.

(** [format(x, ',.2f')] for a float [x]. *)
Definition format_2f (x : float) : string := format_spec_float (Prim2SF x).

(** [float(z)] for an int: the nearest double, [OverflowError] when there
    is none. *)
Definition float_of_int (z : Z) : outcome spec_float :=
  match binary_normalize 53 1024 z 0 false with
  | S754_infinity _ => Raised OverflowError
  | x => Returned x
  end.

(** [format(v, ',.2f')] for any value: ints (and bools, which are ints) go
    through [float]; [str] rejects the format code, and [None], lists and
    dicts any format string that is not empty. *)
Definition py_format_2f (v : pyvalue) : outcome string :=
  match v with
  | PyFloat x => Returned (format_2f x)
  | PyInt z =>
      match float_of_int z with
      | Returned x => Returned (format_spec_float x)
      | Raised e => Raised e
      end
  | PyBool b => Returned (format_spec_float
                            (binary_normalize 53 1024 (Z.b2z b) 0 false))
  | PyStr _ => Raised ValueError
  | PyNone | PyContainer _ => Raised TypeError
  end.

Definition int_str (z : Z) : string :=
  match z with
  | Zneg p => "-" +:+ decimal_digits (Npos p)
  | _ => decimal_digits (Z.to_N z)
  end.

(** [str(v)], what a bare replacement field of an f-string inserts. *)
Definition py_str {runtime : PyRuntime} (v : pyvalue) : string :=
  match v with
  | PyStr s => s
  | PyInt z => int_str z
  | PyBool true => "True"
  | PyBool false => "False"
  | PyNone => "None"
  | PyFloat x => float_repr x
  | PyContainer shown => shown
  end.

(** A dict literal keeps its insertion order. *)
Fixpoint dict_get {A : Type} (k : string) (d : list (string * A)) : option A :=
  match d with
  | [] => None
  | (k', v) :: rest => if String.eqb k k' then Some v else dict_get k rest
  end.

(* ===================================================================== *)
(** ** pipecat: conversation context and frames *)
(* ===================================================================== *)

Record Message : Type := { role : string; content : string }.

Record ParameterSpec : Type :=
  { param_type : string; param_description : string }.

Record FunctionParameters : Type :=
  { parameters_type : string;
    properties : list (string * ParameterSpec);
    required : list string }.

Record FunctionSpec : Type :=
  { fn_name : string;
    fn_description : string;
    fn_parameters : FunctionParameters }.

Record ToolSchema : Type :=
  { tool_type : string; tool_function : FunctionSpec }.

(** [OpenAILLMContext]: the message list and the tool list.  The library
    stores an empty tool list as its NOT_GIVEN marker; both are [[]]
    here. *)
Record OpenAILLMContext : Type :=
  { messages : list Message; tools : list ToolSchema }.

(** Context objects live on the Python heap and are passed by reference. *)
Definition loc : Type := nat.

Inductive Frame : Type :=
| OpenAILLMContextFrame (context : loc)
| EndFrame.

Inductive FrameDirection : Type := DOWNSTREAM | UPSTREAM.

(** The handles a tool call passes along: the language-model service, on
    which the handler calls [process_frame], and the result callback, which
    it never calls. *)
Inductive OpenAILLMService : Type := llm_service.
Inductive ResultCallback : Type := result_callback_handle.

(* ===================================================================== *)
(** ** Firestore: update payloads and the store boundary *)
(* ===================================================================== *)

#[warnings="-register-all"] Inductive fs_value : Type :=
| FsValue (v : pyvalue)
| SERVER_TIMESTAMP
| ArrayUnion (values : list fs_value)
| FsDict (fields : list (string * fs_value)).

(** The one operation the bot uses: [document.update(data)].  It returns
    the store after the write or raises, leaving the store as it was. *)
Class RecordStore (S : Type) : Type :=
  { store_update :
      S -> string -> string -> list (string * fs_value) -> outcome S }.

(** *** The Firestore client

    [update] prepares its request on the client.  A server timestamp or an
    array union that is a value of the update dict, at any depth of nested
    dicts, becomes a transform of the request.  The elements of an array
    union, though, are encoded as plain values, and the encoder has no
    case for a transform marker: on one it raises [TypeError], and no
    request is sent. *)

(** An element of an array union that the client can encode. *)
Fixpoint plain_value (v : fs_value) : bool :=
  match v with
  | FsValue _ => true
  | SERVER_TIMESTAMP | ArrayUnion _ => false
  | FsDict fields =>
      (fix all_plain (fs : list (string * fs_value)) : bool :=
         match fs with
         | [] => true
         | (_, x) :: rest => plain_value x && all_plain rest
         end) fields
  end.

(** A value of the update dict for which the client can build a
    request. *)
Fixpoint sendable (v : fs_value) : bool :=
  match v with
  | FsValue _ | SERVER_TIMESTAMP => true
  | ArrayUnion values => forallb plain_value values
  | FsDict fields =>
      (fix all_sendable (fs : list (string * fs_value)) : bool :=
         match fs with
         | [] => true
         | (_, x) :: rest => sendable x && all_sendable rest
         end) fields
  end.

Definition update_sendable (data : list (string * fs_value)) : bool :=
  forallb (fun field => sendable (snd field)) data.

(** The client in front of a store of documents: an update with a marker
    it cannot encode it refuses itself; the rest it sends on, and the
    answer, an error included, is the backend's. *)
Record FirestoreClient (S : Type) : Type := { backend : S }.
Arguments backend {S} _.

#[export] Instance firestore_client {S : Type} {documents : RecordStore S}
  : RecordStore (FirestoreClient S) :=
  {| store_update client collection document data :=
       if update_sendable data
       then match store_update (backend client) collection document data with
            | Returned s' => Returned {| backend := s' |}
            | Raised e => Raised e
            end
       else Raised TypeError |}.

(* ===================================================================== *)
(** ** The world and its monad *)
(* ===================================================================== *)

(** The attributes of a [CollectionProcessor] object; they are set once,
    by the constructor. *)
Record CollectionProcessor : Type :=
  { customer_id : string; overdue_amount : float }.

(** The calls the bot makes on its collaborators, as they are recorded in
    the trace.  A store request is recorded with its outcome: [ok] tells
    whether [update] returned. *)
Inductive Event : Type :=
| CtxMessagesClear (context : loc)
| CtxAddMessage (context : loc) (m : Message)
| CtxSetTools (context : loc) (ts : list ToolSchema)
| DbUpdate (collection document : string)
           (data : list (string * fs_value)) (ok : bool)
| LlmProcessFrame (f : Frame) (direction : FrameDirection)
| TaskQueueFrames (fs : list Frame).

(** What awaiting [llm.process_frame(frame, direction)] comes to: it
    returns, or it raises.  That is the service's affair (the network, the
    model), so it is left open: any function of the service, the frame, the
    direction and all the calls made so far. *)
Class LanguageModel : Type :=
  { process_frame_outcome :
      OpenAILLMService -> Frame -> FrameDirection -> list Event
      -> outcome unit }.

(** The Python heap (the context objects), the functions registered with
    the language-model service, the store, and the calls made so far,
    oldest first. *)
Record World (S : Type) : Type :=
  { heap : gmap loc OpenAILLMContext;
    llm_callbacks : gmap string CollectionProcessor;
    db : S;
    trace : list Event }.
Arguments heap {S} w.
Arguments llm_callbacks {S} w.
Arguments db {S} w.
Arguments trace {S} w.

Definition M (S A : Type) : Type := World S -> outcome A * World S.

Definition ret {S A} (a : A) : M S A := fun w => (Returned a, w).

Definition raise {S A} (e : exn) : M S A := fun w => (Raised e, w).

(** Sequencing: what was done before an exception stays done. *)
Definition bind {S A B} (m : M S A) (k : A -> M S B) : M S B :=
  fun w =>
    match m w with
    | (Returned a, w') => k a w'
    | (Raised e, w') => (Raised e, w')
    end.

Notation "x <- m ;; k" := (bind m (fun x => k))
  (at level 100, m at next level, k at level 200, right associativity).
Notation "'do' m ;; k" := (bind m (fun _ => k))
  (at level 100, m at next level, k at level 200, right associativity).

Definition emit {S} (e : Event) (w : World S) : World S :=
  {| heap := heap w; llm_callbacks := llm_callbacks w; db := db w;
     trace := trace w ++ [e] |}.

Definition with_heap {S} (h : gmap loc OpenAILLMContext) (w : World S)
  : World S :=
  {| heap := h; llm_callbacks := llm_callbacks w; db := db w;
     trace := trace w |}.

Section Model.
Context {S : Type} {store : RecordStore S} {runtime : PyRuntime}
  {model : LanguageModel}.

(** [args[key]] *)
Definition getitem (args : gmap string pyvalue) (key : string)
  : M S pyvalue :=
  match args !! key with
  | Some v => ret v
  | None => raise (KeyError key)
  end.

(** [OpenAILLMContext(messages=[])] *)
Definition new_context : M S loc :=
  fun w =>
    let l := fresh (dom (heap w)) in
    (Returned l,
     with_heap (<[l := {| messages := []; tools := [] |}]> (heap w)) w).

(** [context.messages.clear()] *)
Definition messages_clear (context : loc) : M S unit :=
  fun w =>
    (Returned tt,
     emit (CtxMessagesClear context)
       (with_heap
          (alter (fun c => {| messages := []; tools := tools c |})
                 context (heap w)) w)).

(** [context.add_message(m)] *)
Definition add_message (context : loc) (m : Message) : M S unit :=
  fun w =>
    (Returned tt,
     emit (CtxAddMessage context m)
       (with_heap
          (alter (fun c => {| messages := messages c ++ [m];
                              tools := tools c |})
                 context (heap w)) w)).

(** [context.set_tools(ts)] *)
Definition set_tools (context : loc) (ts : list ToolSchema) : M S unit :=
  fun w =>
    (Returned tt,
     emit (CtxSetTools context ts)
       (with_heap
          (alter (fun c => {| messages := messages c; tools := ts |})
                 context (heap w)) w)).

(** [db.collection(collection).document(document).update(data)] *)
Definition document_update (collection document : string)
    (data : list (string * fs_value)) : M S unit :=
  fun w =>
    match store_update (db w) collection document data with
    | Returned s' =>
        (Returned tt,
         emit (DbUpdate collection document data true)
           {| heap := heap w; llm_callbacks := llm_callbacks w; db := s';
              trace := trace w |})
    | Raised e =>
        (Raised e, emit (DbUpdate collection document data false) w)
    end.

(** [await llm.process_frame(frame, direction)]: the call is made, and
    returns or raises as the service has it. *)
Definition process_frame (llm : OpenAILLMService) (f : Frame)
    (direction : FrameDirection) : M S unit :=
  fun w =>
    (process_frame_outcome llm f direction (trace w),
     emit (LlmProcessFrame f direction) w).

(** [await task.queue_frames(fs)] *)
Definition queue_frames (fs : list Frame) : M S unit :=
  fun w => (Returned tt, emit (TaskQueueFrames fs) w).

(** [llm.register_function(name, handler)], the handler being a bound
    method [self.save_repayment_date]. *)
Definition register_function (name : string) (self : CollectionProcessor)
  : M S unit :=
  fun w =>
    (Returned tt,
     {| heap := heap w; llm_callbacks := <[name := self]> (llm_callbacks w);
        db := db w; trace := trace w |}).

(** [llm.create_context_aggregator(context)] builds the aggregator pair
    and touches nothing else. *)
Definition create_context_aggregator (context : loc) : M S unit := ret tt.

End Model.

(* ===================================================================== *)
(** ** CollectionProcessor *)
(* ===================================================================== *)

Definition nl : string := String "010"%char EmptyString.
Definition dquote : string := String "034"%char EmptyString.

(** The lines of a triple-quoted literal, joined again. *)
Definition lines (ls : list string) : string := String.concat nl ls.

(** The f-string of [__init__] (bot.py, lines 46 to 60). *)
Definition system_prompt (customer_name : string) (overdue_amount : float)
  : string :=
  lines [
      "You are Sarah from ABC Bank's collections department. You're calling regarding an overdue loan payment of ₹" +:+ format_2f overdue_amount +:+ ". ";
      "                You're speaking with " +:+ customer_name +:+ ". Your job is to:";
      "";
      "                1. Introduce yourself professionally and verify the customer's identity";
      "                2. Inform them about their overdue payment of ₹" +:+ format_2f overdue_amount;
      "                3. Emphasize that:";
      "                   - Late payments severely impact their CIBIL score";
      "                   - A low CIBIL score will affect their future loan eligibility";
      "                   - This may impact their ability to get credit cards, loans, or mortgages";
      "                4. Get a firm commitment on a repayment date and amount";
      "                ";
      "                Be firm but professional. Use pauses by inserting " +:+ dquote +:+ "-" +:+ dquote +:+ " where needed. Use two question marks for emphasis.";
      "                If the customer tries to avoid committing to a date, remind them about the CIBIL score impact.";
      "                ";
      "                Start by introducing yourself and confirming you're speaking with " +:+ customer_name +:+ "."
  ].

(** The f-string of [save_repayment_date] (lines 113 to 119), its five
    replacement fields already converted, in reading order. *)
Definition closing_prompt (amount1 date1 amount2 date2 date3 : string)
  : string :=
  lines [
      "Thank the customer for their commitment to pay ₹" +:+ amount1 +:+ " by " +:+ date1 +:+ ". Then:";
      "            1. Clearly restate their commitment to pay ₹" +:+ amount2 +:+ " by " +:+ date2;
      "            2. Remind them that keeping this commitment is crucial for their CIBIL score";
      "            3. Mention that failing to pay by " +:+ date3 +:+ " may result in further action";
      "            4. End the call professionally and courteously";
      "            ";
      "            Keep your closing brief but firm."
  ].

(** The tool list handed to [set_tools] (lines 65 to 87). *)
Definition save_repayment_date_schema : ToolSchema :=
  {| tool_type := "function";
     tool_function :=
       {| fn_name := "save_repayment_date";
          fn_description :=
            "Save the promised repayment date from the customer";
          fn_parameters :=
            {| parameters_type := "object";
               properties :=
                 [ ("repayment_date",
                    {| param_type := "string";
                       param_description :=
                         "The date the customer promises to pay, in YYYY-MM-DD format" |});
                   ("amount",
                    {| param_type := "number";
                       param_description :=
                         "The amount the customer promises to pay" |}) ];
               required := ["repayment_date"; "amount"] |} |} |}.

(** The fields of the update dict, given the four values read from
    [args] and the handler's [overdue_amount]. *)
Definition commitment_fields (overdue : float)
    (promised_repayment_date promised_amount promised_date
       entry_amount : pyvalue) : list (string * fs_value) :=
  [ ("promised_repayment_date", FsValue promised_repayment_date);
    ("promised_amount", FsValue promised_amount);
    ("overdue_amount", FsValue (PyFloat overdue));
    ("commitment_made_at", SERVER_TIMESTAMP);
    ("last_contact", SERVER_TIMESTAMP);
    ("contact_type", FsValue (PyStr "phone_call"));
    ("commitment_status", FsValue (PyStr "pending"));
    ("payment_history",
     ArrayUnion
       [ FsDict [ ("date", SERVER_TIMESTAMP);
                  ("promised_date", FsValue promised_date);
                  ("promised_amount", FsValue entry_amount);
                  ("status", FsValue (PyStr "pending")) ] ]) ].

Section Processor.
Context {S : Type} {store : RecordStore S} {runtime : PyRuntime}
  {model : LanguageModel}.

(** [CollectionProcessor.__init__] *)
Definition CollectionProcessor_init (context : loc)
    (customer_id customer_name : string) (overdue_amount : float)
  : M S CollectionProcessor :=
  do add_message context
       {| role := "system";
          content := system_prompt customer_name overdue_amount |} ;;
  do set_tools context [save_repayment_date_schema] ;;
  ret {| customer_id := customer_id; overdue_amount := overdue_amount |}.

(** The dict built for [user_ref.update] (lines 95 to 109); it reads
    [args] four times, in display order. *)
Definition update_data (self : CollectionProcessor)
    (args : gmap string pyvalue) : M S (list (string * fs_value)) :=
  promised_repayment_date <- getitem args "repayment_date" ;;
  promised_amount <- getitem args "amount" ;;
  promised_date <- getitem args "repayment_date" ;;
  entry_amount <- getitem args "amount" ;;
  ret (commitment_fields (overdue_amount self) promised_repayment_date
         promised_amount promised_date entry_amount).

(** The replacement field [{args['amount']:,.2f}] *)
Definition amount_field (args : gmap string pyvalue) : M S string :=
  amount <- getitem args "amount" ;;
  match py_format_2f amount with
  | Returned s => ret s
  | Raised e => raise e
  end.

(** The replacement field [{args['repayment_date']}] *)
Definition date_field (args : gmap string pyvalue) : M S string :=
  repayment_date <- getitem args "repayment_date" ;;
  ret (py_str repayment_date).

Definition closing_message (args : gmap string pyvalue) : M S Message :=
  amount1 <- amount_field args ;;
  date1 <- date_field args ;;
  amount2 <- amount_field args ;;
  date2 <- date_field args ;;
  date3 <- date_field args ;;
  ret {| role := "system";
         content := closing_prompt amount1 date1 amount2 date2 date3 |}.

(** [CollectionProcessor.save_repayment_date] *)
Definition save_repayment_date (self : CollectionProcessor)
    (function_name tool_call_id : string) (args : gmap string pyvalue)
    (llm : OpenAILLMService) (context : loc)
    (result_callback : ResultCallback) : M S unit :=
  data <- update_data self args ;;
  do document_update "users" (customer_id self) data ;;
  m <- closing_message args ;;
  do add_message context m ;;
  do set_tools context [] ;;
  process_frame llm (OpenAILLMContextFrame context) DOWNSTREAM.

End Processor.

(* ===================================================================== *)
(** ** main and the transport event handlers *)
(* ===================================================================== *)

(** What the running pipeline hands to the bot's code: the two transport
    events, a function call decoded from the model's answer, and the turns
    the context aggregators append to the context. *)
Inductive Input : Type :=
| ClientConnected (client : nat)
| ClientDisconnected (client : nat)
| FunctionCall (function_name tool_call_id : string)
               (args : gmap string pyvalue)
| AggregatedTurn (m : Message).

Inductive Transport : Type := websocket_transport.

Module Main.

(** Customer details (lines 156 to 158). *)
Definition customer_id : string := "chad_bailey".
Definition customer_name : string := "Chad Bailey".
Definition overdue_amount : float := 25000.00%float.

Section Handlers.
Context {S : Type} {store : RecordStore S} {runtime : PyRuntime}
  {model : LanguageModel}.

(** [main] up to the registration of the tool (lines 160 to 167); the
    result is the context every closure below captures. *)
Definition main : M S loc :=
  context <- new_context ;;
  do create_context_aggregator context ;;
  collection <- CollectionProcessor_init context
                  customer_id customer_name overdue_amount ;;
  do register_function "save_repayment_date" collection ;;
  ret context.

Definition on_client_connected (context : loc)
    (transport : Transport) (client : nat) : M S unit :=
  do messages_clear context ;;
  collection <- CollectionProcessor_init context
                  customer_id customer_name overdue_amount ;;
  do create_context_aggregator context ;;
  queue_frames [OpenAILLMContextFrame context].

Definition on_client_disconnected (context : loc)
    (transport : Transport) (client : nat) : M S unit :=
  queue_frames [EndFrame].

(** The language-model service looks a function call up by name among the
    registered functions and calls the handler with the context it is
    working on.  A name nobody registered reaches no code of the bot:
    whatever the library then does, the world stays as it is. *)
Definition call_function (context : loc)
    (function_name tool_call_id : string) (args : gmap string pyvalue)
    (w : World S) : World S :=
  match llm_callbacks w !! function_name with
  | Some self =>
      snd (save_repayment_date self function_name tool_call_id args
             llm_service context result_callback_handle w)
  | None => w
  end.

(** The world after one input.  Whether the code that handled it returned
    or raised is for the pipeline to deal with; what it did to the world
    before raising stays done. *)
Definition handle (context : loc) (i : Input) (w : World S) : World S :=
  match i with
  | ClientConnected client =>
      snd (on_client_connected context websocket_transport client w)
  | ClientDisconnected client =>
      snd (on_client_disconnected context websocket_transport client w)
  | FunctionCall function_name tool_call_id args =>
      call_function context function_name tool_call_id args w
  | AggregatedTurn m => snd (add_message context m w)
  end.

(** [runner.run(task)]: the inputs are handled one after the other, each
    in the world the one before left behind; a run that an exception ends
    early is a run over a shorter list. *)
Fixpoint serve (context : loc) (inputs : list Input) (w : World S)
  : World S :=
  match inputs with
  | [] => w
  | i :: rest => serve context rest (handle context i w)
  end.

End Handlers.
End Main.

(* ===================================================================== *)
(** ** Vocabulary of the properties *)
(* ===================================================================== *)

(** [s] contains [sub]. *)
Definition mentions (sub s : string) : Prop :=
  exists pre post : string, s = pre +:+ sub +:+ post.

Definition is_db_update (e : Event) : bool :=
  match e with DbUpdate _ _ _ _ => true | _ => false end.

Definition is_process_frame (e : Event) : bool :=
  match e with LlmProcessFrame _ _ => true | _ => false end.

(** The store requests of a trace, oldest first. *)
Definition db_updates (t : list Event) : list Event :=
  List.filter is_db_update t.



Definition is_queue_frames (e : Event) : bool :=
  match e with TaskQueueFrames _ => true | _ => false end.

Definition is_function_call (i : Input) : bool :=
  match i with FunctionCall _ _ _ => true | _ => false end.

Definition is_connect (i : Input) : bool :=
  match i with ClientConnected _ => true | _ => false end.

(** An event that is a store request is one for [customer]'s document,
    carrying [overdue] as the overdue amount. *)
Definition update_of (customer : string) (overdue : float) (e : Event)
  : Prop :=
  match e with
  | DbUpdate collection document data _ =>
      collection = "users" /\ document = customer
      /\ dict_get "overdue_amount" data = Some (FsValue (PyFloat overdue))
  | _ => True
  end.

(** The context lists a tool of that name. *)
Definition tool_offered (c : OpenAILLMContext) (name : string) : bool :=
  existsb (fun t => String.eqb (fn_name (tool_function t)) name) (tools c).

(** The contract of the language-model boundary: the model calls only
    functions that the context it was given lists as tools.  [true] when
    every function call among [inputs] arrives while its tool is listed. *)
Fixpoint llm_contract {S : Type} {store : RecordStore S}
    {runtime : PyRuntime} {model : LanguageModel}
    (context : loc) (inputs : list Input) (w : World S) : bool :=
  match inputs with
  | [] => true
  | i :: rest =>
      match i with
      | FunctionCall function_name _ _ =>
          match heap w !! context with
          | Some c => tool_offered c function_name
          | None => false
          end
      | _ => true
      end
      && llm_contract context rest (Main.handle context i w)
  end.

(** The four ways a tool invocation can go: an argument is missing, the
    store refuses the update, the amount cannot be formatted, or the
    record is written, the context rewritten and the frame handed to the
    language model, whose call then returns or raises. *)
Inductive invocation {S : Type} {store : RecordStore S}
    {runtime : PyRuntime} {model : LanguageModel}
    (self : CollectionProcessor) (args : gmap string pyvalue)
    (llm : OpenAILLMService) (context : loc) (w : World S)
  : outcome unit -> World S -> Prop :=
| missing_argument key :
    (key = "repayment_date" \/ key = "amount") ->
    args !! key = None ->
    invocation self args llm context w (Raised (KeyError key)) w
| write_refused d a e :
    args !! "repayment_date" = Some d ->
    args !! "amount" = Some a ->
    store_update (db w) "users" (customer_id self)
      (commitment_fields (overdue_amount self) d a d a) = Raised e ->
    invocation self args llm context w (Raised e)
      (emit (DbUpdate "users" (customer_id self)
               (commitment_fields (overdue_amount self) d a d a) false) w)
| amount_unformattable d a s' e :
    args !! "repayment_date" = Some d ->
    args !! "amount" = Some a ->
    store_update (db w) "users" (customer_id self)
      (commitment_fields (overdue_amount self) d a d a) = Returned s' ->
    py_format_2f a = Raised e ->
    invocation self args llm context w (Raised e)
      (emit (DbUpdate "users" (customer_id self)
               (commitment_fields (overdue_amount self) d a d a) true)
         {| heap := heap w; llm_callbacks := llm_callbacks w; db := s';
            trace := trace w |})
| commitment_saved d a s' shown :
    args !! "repayment_date" = Some d ->
    args !! "amount" = Some a ->
    store_update (db w) "users" (customer_id self)
      (commitment_fields (overdue_amount self) d a d a) = Returned s' ->
    py_format_2f a = Returned shown ->
    let m := {| role := "system";
                content := closing_prompt shown (py_str d) shown (py_str d)
                             (py_str d) |} in
    invocation self args llm context w
      (process_frame_outcome llm (OpenAILLMContextFrame context) DOWNSTREAM
         (trace w ++
          [ DbUpdate "users" (customer_id self)
              (commitment_fields (overdue_amount self) d a d a) true;
            CtxAddMessage context m;
            CtxSetTools context [] ]))
      {| heap :=
           alter (fun c => {| messages := messages c; tools := [] |}) context
             (alter (fun c => {| messages := messages c ++ [m];
                                 tools := tools c |}) context (heap w));
         llm_callbacks := llm_callbacks w;
         db := s';
         trace :=
           trace w ++
           [ DbUpdate "users" (customer_id self)
               (commitment_fields (overdue_amount self) d a d a) true;
             CtxAddMessage context m;
             CtxSetTools context [];
             LlmProcessFrame (OpenAILLMContextFrame context) DOWNSTREAM ] |}.

(** An event a tool invocation of [self] on [context] can add to the
    trace. *)
Definition invocation_event (self : CollectionProcessor) (context : loc)
    (e : Event) : Prop :=
  match e with
  | DbUpdate collection document _ _ =>
      collection = "users" /\ document = customer_id self
  | CtxAddMessage l m => l = context /\ role m = "system"
  | CtxSetTools l ts => l = context /\ ts = []
  | LlmProcessFrame f direction =>
      f = OpenAILLMContextFrame context /\ direction = DOWNSTREAM
  | CtxMessagesClear _ | TaskQueueFrames _ => False
  end.

(** The key [save_repayment_date] fails on when an argument is missing:
    the dict display reads [repayment_date] first. *)
Definition first_missing_key (args : gmap string pyvalue) : string :=
  match args !! "repayment_date" with
  | None => "repayment_date"
  | Some _ => "amount"
  end.

(** The world [main] starts in: no context yet, no function registered. *)
Definition boot {S : Type} (s : S) : World S :=
  {| heap := ∅; llm_callbacks := ∅; db := s; trace := [] |}.

(* ===================================================================== *)
(** ** A store and a runtime to evaluate the model on *)
(* ===================================================================== *)

(** A store of documents without a client in front: for each document
    that exists it keeps the updates it was sent, oldest first, whatever
    they hold, and it raises for a document that is not there.  It shows
    what the bot asks for; the Firestore client above does not let the
    bot's update through to it. *)
Abbreviation DocumentLog :=
  (gmap (string * string) (list (list (string * fs_value)))).

#[export] Instance document_log : RecordStore DocumentLog :=
  {| store_update s collection document data :=
       match s !! (collection, document) with
       | Some updates =>
           Returned (<[(collection, document) := updates ++ [data]]> s)
       | None => Raised (StoreError "NotFound")
       end |}.

(** A runtime for inputs whose dates are not floats: [repr] of a float is
    never called on them, so that what it returns here plays no part. *)
Definition string_dates_runtime : PyRuntime :=
  {| float_repr := fun _ => "" |}.

(** A language model whose [process_frame] always returns, and one whose
    [process_frame] always raises. *)
Definition responsive_llm : LanguageModel :=
  {| process_frame_outcome := fun _ _ _ _ => Returned tt |}.
Definition unreachable_llm : LanguageModel :=
  {| process_frame_outcome :=
       fun _ _ _ _ => Raised (ServiceError "language model unreachable") |}.

Definition bank_records : DocumentLog := {[ ("users", "chad_bailey") := [] ]}.


(** The arguments of the specification's example call. *)
Definition example_args : gmap string pyvalue :=
  {[ "repayment_date" := PyStr "2025-03-01";
     "amount" := PyFloat 500.0%float ]}.

(** The same promise with the sign of the amount turned. *)
Definition negative_args : gmap string pyvalue :=
  {[ "repayment_date" := PyStr "2025-03-01";
     "amount" := PyFloat (-500.0)%float ]}.

(** An amount in words. *)
Definition string_amount_args : gmap string pyvalue :=
  {[ "repayment_date" := PyStr "2025-03-01";
     "amount" := PyStr "five hundred" ]}.

(** Two calls without a function call, a dialogue turn in the first. *)
Definition two_quiet_calls : list Input :=
  [ ClientConnected 1;
    AggregatedTurn {| role := "user"; content := "Who is this?" |};
    ClientDisconnected 1;
    ClientConnected 2;
    ClientDisconnected 2 ].

(** The process after [main] has set up, on a store that has the
    customer's document, and on one that has not; the context [main]
    creates is the first object of the heap. *)
Definition started : World DocumentLog := snd (Main.main (boot bank_records)).
Definition started_without_document : World DocumentLog :=
  snd (Main.main (boot (∅ : DocumentLog))).
Definition the_context : loc := 0.

(** The same start-up with the Firestore client in front of the store. *)
Definition started_on_firestore : World (FirestoreClient DocumentLog) :=
  snd (Main.main (boot {| backend := bank_records |})).

(** What that context holds once the constructor has run on it. *)
Definition seeded_context : OpenAILLMContext :=
  {| messages :=
       [ {| role := "system";
            content := system_prompt "Chad Bailey" 25000%float |} ];
     tools := [save_repayment_date_schema] |}.

(** What it holds after the example call. *)
Definition used_context : OpenAILLMContext :=
  {| messages :=
       [ {| role := "system";
            content := system_prompt "Chad Bailey" 25000%float |};
         {| role := "system";
            content := closing_prompt "500.00" "2025-03-01" "500.00"
                         "2025-03-01" "2025-03-01" |} ];
     tools := [] |}.

(** The handler [main] registers. *)
Definition registered_handler : CollectionProcessor :=
  {| customer_id := Main.customer_id;
     overdue_amount := Main.overdue_amount |}.

Definition example_call : Input :=
  FunctionCall "save_repayment_date" "call_1" example_args.

(** How the example call may go on: the agent's closing words, then the
    customer hangs up. *)
Definition example_ending : list Input :=
  [ AggregatedTurn {| role := "assistant"; content := "Thank you." |};
    ClientDisconnected 1 ].

(** The example call handled right after start-up. *)
Definition after_example_call : World DocumentLog :=
  Main.handle (runtime := string_dates_runtime) (model := responsive_llm)
    the_context example_call started.

(** Python's [format] on the two amounts of the source and on ints. *)
Example format_overdue : format_2f 25000.00%float = "25,000.00".
Proof. reflexivity. Qed.

Example format_half_even : format_2f 0.125%float = "0.12".
Proof. reflexivity. Qed.

Example format_negative_int : py_format_2f (PyInt (-1234567)) = Returned "-1,234,567.00".
Proof. reflexivity. Qed.

Example format_huge_int : py_format_2f (PyInt (2 ^ 1024)) = Raised OverflowError.
Proof. vm_compute. reflexivity. Qed.

(* ===================================================================== *)
(** ** Strings that mention a substring *)
(* ===================================================================== *)

Lemma string_app_cons (a : ascii) (s t : string) :
  String a s +:+ t = String a (s +:+ t).
Proof. reflexivity. Qed.

Lemma string_app_assoc (s t u : string) : (s +:+ t) +:+ u = s +:+ t +:+ u.
Proof.
  induction s as [|a s IH]; [reflexivity|].
  rewrite !string_app_cons. f_equal. exact IH.
Qed.

Lemma string_app_nil_r (s : string) : s +:+ "" = s.
Proof.
  induction s as [|a s IH]; [reflexivity|].
  rewrite string_app_cons. f_equal. exact IH.
Qed.

Lemma mentions_here (sub post : string) : mentions sub (sub +:+ post).
Proof. exists ""%string, post. reflexivity. Qed.

Lemma mentions_app_r (sub a b : string) :
  mentions sub b -> mentions sub (a +:+ b).
Proof.
  intros (pre & post & ->). exists (a +:+ pre), post.
  symmetry. apply string_app_assoc.
Qed.

Lemma mentions_app_l (sub a b : string) :
  mentions sub a -> mentions sub (a +:+ b).
Proof.
  intros (pre & post & ->). exists pre, (post +:+ b).
  rewrite !string_app_assoc. reflexivity.
Qed.

Lemma lines_cons (l : string) (ls : list string) :
  lines (l :: ls) = match ls with [] => l | _ => l +:+ nl +:+ lines ls end.
Proof. destruct ls; reflexivity. Qed.

Lemma mentions_first_line (sub l : string) (ls : list string) :
  mentions sub l -> mentions sub (lines (l :: ls)).
Proof.
  intros Hl. rewrite lines_cons. destruct ls; [exact Hl|].
  apply mentions_app_l, Hl.
Qed.

Create HintDb mentions.

#[local] Hint Resolve mentions_here mentions_app_r mentions_app_l
  mentions_first_line : mentions.

Lemma closing_prompt_mentions_amount (a1 d1 a2 d2 d3 : string) :
  mentions a1 (closing_prompt a1 d1 a2 d2 d3).
Proof. unfold closing_prompt. auto with mentions. Qed.

Lemma closing_prompt_mentions_date (a1 d1 a2 d2 d3 : string) :
  mentions d1 (closing_prompt a1 d1 a2 d2 d3).
Proof. unfold closing_prompt. auto 7 with mentions. Qed.

Lemma system_prompt_mentions_amount (name : string) (o : float) :
  mentions (format_2f o) (system_prompt name o).
Proof. unfold system_prompt. auto with mentions. Qed.

Lemma system_prompt_mentions_name (name : string) (o : float) :
  mentions name (system_prompt name o).
Proof.
  unfold system_prompt. rewrite lines_cons. apply mentions_app_r, mentions_app_r.
  auto with mentions.
Qed.

(* ===================================================================== *)
(** ** The handler, case by case *)
(* ===================================================================== *)

Section Properties.
Context {S : Type} {store : RecordStore S} {runtime : PyRuntime}
  {model : LanguageModel}.

Implicit Types (w : World S) (c : OpenAILLMContext) (context : loc).
Implicit Types (self : CollectionProcessor) (args : gmap string pyvalue).

(** What the context operations do to a context that is on the heap. *)
Lemma add_message_lookup context m w c :
  heap w !! context = Some c ->
  heap (snd (add_message context m w)) !! context
  = Some {| messages := messages c ++ [m]; tools := tools c |}.
Proof. intros Hc. simpl. rewrite lookup_alter_eq, Hc. reflexivity. Qed.

Lemma set_tools_lookup context ts w c :
  heap w !! context = Some c ->
  heap (snd (set_tools context ts w)) !! context
  = Some {| messages := messages c; tools := ts |}.
Proof. intros Hc. simpl. rewrite lookup_alter_eq, Hc. reflexivity. Qed.

Lemma messages_clear_lookup context w c :
  heap w !! context = Some c ->
  heap (snd (messages_clear context w)) !! context
  = Some {| messages := []; tools := tools c |}.
Proof. intros Hc. simpl. rewrite lookup_alter_eq, Hc. reflexivity. Qed.

(** The constructor, as one step. *)
Lemma CollectionProcessor_init_run context cid name o w :
  CollectionProcessor_init context cid name o w
  = (Returned {| customer_id := cid; overdue_amount := o |},
     snd (set_tools context [save_repayment_date_schema]
            (snd (add_message context
                    {| role := "system"; content := system_prompt name o |}
                    w)))).
Proof. reflexivity. Qed.

Lemma save_repayment_date_invocation self function_name tool_call_id args
    llm context result_callback w :
  invocation self args llm context w
    (fst (save_repayment_date self function_name tool_call_id args llm
            context result_callback w))
    (snd (save_repayment_date self function_name tool_call_id args llm
            context result_callback w)).
Proof.
  unfold save_repayment_date, update_data, closing_message, amount_field,
    date_field, getitem, bind, ret, raise.
  destruct (args !! "repayment_date") as [d|] eqn:Hd; simpl;
    [|apply missing_argument; auto].
  destruct (args !! "amount") as [a|] eqn:Ha; simpl;
    [|apply missing_argument; auto].
  unfold document_update.
  destruct (store_update (db w) "users" (customer_id self)
              (commitment_fields (overdue_amount self) d a d a))
    as [s'|e] eqn:Hs; simpl; [|eapply write_refused; eauto].
  destruct (py_format_2f a) as [shown|e] eqn:Hf; simpl;
    [|eapply amount_unformattable; eauto].
  unfold emit, with_heap. simpl. rewrite <- !app_assoc. simpl.
  eapply commitment_saved; eauto.
Qed.

(** The same, as an equation on the result. *)
Lemma save_repayment_date_cases self function_name tool_call_id args llm
    context result_callback w :
  exists r w',
    save_repayment_date self function_name tool_call_id args llm context
      result_callback w = (r, w')
    /\ invocation self args llm context w r w'.
Proof.
  eexists _, _. split; [apply surjective_pairing|].
  apply save_repayment_date_invocation.
Qed.

(** An invocation leaves the registered functions alone, and only ever
    adds to the trace. *)
Lemma invocation_callbacks self args llm context w r w' :
  invocation self args llm context w r w' -> llm_callbacks w' = llm_callbacks w.
Proof. destruct 1; reflexivity. Qed.

(* ===================================================================== *)
(** ** The tool invocation *)
(* ===================================================================== *)

(** What the handler does once a store has accepted its update: invoked
    with a date string [d] and an amount [a] that [,.2f] can format, it has
    sent exactly one update, to document [customer_id self] of [users]; its
    fields carry [d], [a], the handler's overdue amount, ["phone_call"],
    ["pending"], the server-timestamp marker twice, and one
    [payment_history] entry with the same date, amount and status.  The
    context then has one more message, a system message that mentions [d]
    and the formatted [a], and no tools, and the frame goes to the language
    model, whose call returns or raises. *)
Lemma save_repayment_date_records_commitment
    self function_name tool_call_id args llm context result_callback w c
    (d : string) (a : pyvalue) (shown : string) (s' : S) :
  args !! "repayment_date" = Some (PyStr d) ->
  args !! "amount" = Some a ->
  py_format_2f a = Returned shown ->
  heap w !! context = Some c ->
  store_update (db w) "users" (customer_id self)
    (commitment_fields (overdue_amount self) (PyStr d) a (PyStr d) a)
  = Returned s' ->
  exists (data entry : list (string * fs_value)) (m : Message)
         (r : outcome unit) (w' : World S),
    save_repayment_date self function_name tool_call_id args llm context
      result_callback w = (r, w')
    /\ trace w' = trace w ++
                  [ DbUpdate "users" (customer_id self) data true;
                    CtxAddMessage context m;
                    CtxSetTools context [];
                    LlmProcessFrame (OpenAILLMContextFrame context)
                      DOWNSTREAM ]
    /\ db w' = s'
    /\ dict_get "promised_repayment_date" data = Some (FsValue (PyStr d))
    /\ dict_get "promised_amount" data = Some (FsValue a)
    /\ dict_get "overdue_amount" data
       = Some (FsValue (PyFloat (overdue_amount self)))
    /\ dict_get "commitment_made_at" data = Some SERVER_TIMESTAMP
    /\ dict_get "last_contact" data = Some SERVER_TIMESTAMP
    /\ dict_get "contact_type" data = Some (FsValue (PyStr "phone_call"))
    /\ dict_get "commitment_status" data = Some (FsValue (PyStr "pending"))
    /\ dict_get "payment_history" data = Some (ArrayUnion [FsDict entry])
    /\ dict_get "promised_date" entry = Some (FsValue (PyStr d))
    /\ dict_get "promised_amount" entry = Some (FsValue a)
    /\ dict_get "status" entry = Some (FsValue (PyStr "pending"))
    /\ heap w' !! context
       = Some {| messages := messages c ++ [m]; tools := [] |}
    /\ role m = "system"
    /\ mentions d (content m)
    /\ mentions shown (content m).
Proof.
  intros Hd Ha Hf Hc Hs.
  destruct (save_repayment_date_cases self function_name tool_call_id args
              llm context result_callback w) as (r & w' & Hrun & Hinv).
  destruct Hinv as [key Hkey Hnone | d0 a0 e Hd0 Ha0 Hs0
                   | d0 a0 s0 e Hd0 Ha0 Hs0 Hf0
                   | d0 a0 s0 shown0 Hd0 Ha0 Hs0 Hf0 m].
  - destruct Hkey as [-> | ->]; congruence.
  - rewrite Hd in Hd0. rewrite Ha in Ha0. congruence.
  - rewrite Hd in Hd0. rewrite Ha in Ha0. congruence.
  - assert (d0 = PyStr d) as -> by congruence.
    assert (a0 = a) as -> by congruence.
    assert (s0 = s') as -> by congruence.
    assert (shown0 = shown) as -> by congruence.
    eexists _, _, m, _, _. split; [exact Hrun|].
    simpl. rewrite !lookup_alter_eq, Hc. simpl.
    repeat split; try reflexivity.
    + apply closing_prompt_mentions_date.
    + apply closing_prompt_mentions_amount.
Qed.

(** C3: when the store refuses the update, the handler raises the store's
    exception.  The context is as it was (no closing message, same tools),
    the store is as it was, and the only new event is the refused request:
    no frame is handed to the language model. *)
Theorem storage_failure_aborts_invocation
    self function_name tool_call_id args llm context result_callback w
    (d a : pyvalue) (e : exn) :
  args !! "repayment_date" = Some d ->
  args !! "amount" = Some a ->
  store_update (db w) "users" (customer_id self)
    (commitment_fields (overdue_amount self) d a d a) = Raised e ->
  exists w',
    save_repayment_date self function_name tool_call_id args llm context
      result_callback w = (Raised e, w')
    /\ heap w' = heap w
    /\ db w' = db w
    /\ llm_callbacks w' = llm_callbacks w
    /\ trace w' = trace w ++
                  [ DbUpdate "users" (customer_id self)
                      (commitment_fields (overdue_amount self) d a d a)
                      false ]
    /\ List.filter is_process_frame (trace w')
       = List.filter is_process_frame (trace w).
Proof.
  intros Hd Ha Hs.
  destruct (save_repayment_date_cases self function_name tool_call_id args
              llm context result_callback w) as (r & w' & Hrun & Hinv).
  destruct Hinv as [key Hkey Hnone | d0 a0 e0 Hd0 Ha0 Hs0
                   | d0 a0 s0 e0 Hd0 Ha0 Hs0 Hf0
                   | d0 a0 s0 shown0 Hd0 Ha0 Hs0 Hf0 m].
  - destruct Hkey as [-> | ->]; congruence.
  - assert (d0 = d) as -> by congruence.
    assert (a0 = a) as -> by congruence.
    assert (e0 = e) as -> by congruence.
    eexists. split; [exact Hrun|]. simpl.
    repeat split; try reflexivity.
    rewrite List.filter_app. simpl. apply app_nil_r.
  - assert (d0 = d) as -> by congruence.
    assert (a0 = a) as -> by congruence. congruence.
  - assert (d0 = d) as -> by congruence.
    assert (a0 = a) as -> by congruence. congruence.
Qed.

(** C7: in the events one invocation adds to the trace, a frame handed to
    the language model comes after an update that the store accepted and
    after the system message was added to the context, and it is the last
    event: nothing is forwarded before the commitment is recorded and the
    closing instruction installed. *)
Theorem closing_script_follows_record
    self function_name tool_call_id args llm context result_callback w :
  exists new : list Event,
    trace (snd (save_repayment_date self function_name tool_call_id args
                  llm context result_callback w)) = trace w ++ new
    /\ forall pre post f direction,
         new = pre ++ LlmProcessFrame f direction :: post ->
         (exists data,
             In (DbUpdate "users" (customer_id self) data true) pre)
         /\ (exists m, In (CtxAddMessage context m) pre /\ role m = "system")
         /\ f = OpenAILLMContextFrame context
         /\ direction = DOWNSTREAM
         /\ post = [].
Proof.
  destruct (save_repayment_date_invocation self function_name tool_call_id
              args llm context result_callback w)
    as [key Hkey Hnone | d a e Hd Ha Hs | d a s' e Hd Ha Hs Hf
       | d a s' shown Hd Ha Hs Hf m].
  - exists []. split; [symmetry; apply app_nil_r|].
    intros [|? ?] ? ? ? Heq; discriminate Heq.
  - eexists. split; [reflexivity|].
    intros [|? [|? ?]] ? ? ? Heq; discriminate Heq.
  - eexists. split; [reflexivity|].
    intros [|? [|? ?]] ? ? ? Heq; discriminate Heq.
  - eexists. split; [reflexivity|].
    intros [|e1 [|e2 [|e3 [|e4 pre]]]] post f direction Heq;
      try discriminate Heq.
    + injection Heq as <- <- <- <- <- <-.
      repeat split; [eauto using in_eq | ].
      exists m. split; [auto using in_eq, in_cons | reflexivity].
    + destruct pre; discriminate Heq.
Qed.

(** The handler checks nothing itself: when [repayment_date] or [amount]
    is missing it raises [KeyError] and the world is untouched (nothing is
    sent to the store, the context keeps its messages and tools, no frame
    is forwarded); when both are there the update is handed to the store
    with the amount as it came, whatever its sign. *)
Lemma malformed_arguments
    self function_name tool_call_id args llm context result_callback w :
  match args !! "repayment_date", args !! "amount" with
  | Some d, Some a =>
      exists ok rest,
        trace (snd (save_repayment_date self function_name tool_call_id
                      args llm context result_callback w))
        = trace w ++
          DbUpdate "users" (customer_id self)
            (commitment_fields (overdue_amount self) d a d a) ok :: rest
  | _, _ =>
      exists key,
        save_repayment_date self function_name tool_call_id args llm
          context result_callback w = (Raised (KeyError key), w)
        /\ args !! key = None
  end.
Proof.
  destruct (save_repayment_date_cases self function_name tool_call_id args
              llm context result_callback w) as (r & w' & Hrun & Hinv).
  rewrite Hrun. simpl.
  destruct Hinv as [key Hkey Hnone | d a e Hd Ha Hs | d a s' e Hd Ha Hs Hf
                   | d a s' shown Hd Ha Hs Hf m].
  - assert (exists key0, (Raised (KeyError key), w)
                         = (@Raised unit (KeyError key0), w)
                         /\ args !! key0 = None) as Hgoal by eauto.
    destruct Hkey as [-> | ->]; rewrite Hnone in *.
    + exact Hgoal.
    + destruct (args !! "repayment_date"); exact Hgoal.
  - rewrite Hd, Ha. eexists _, []. reflexivity.
  - rewrite Hd, Ha. eexists _, []. reflexivity.
  - rewrite Hd, Ha. eexists _, _. reflexivity.
Qed.

(* ===================================================================== *)
(** ** Construction of the handler *)
(* ===================================================================== *)

(** C4: for every customer id, name and overdue amount, constructing the
    handler on a context appends one system message, the persona and call
    script for that name and amount, after the messages that were there,
    and makes the tool list the one schema [save_repayment_date] with
    required parameters [repayment_date] and [amount].  It sends nothing to
    the store and forwards no frame: the only events are the two context
    calls. *)
Theorem constructor_seeds_context
    context (customer customer_name : string) (overdue : float) w c :
  heap w !! context = Some c ->
  exists (m : Message) (w' : World S),
    CollectionProcessor_init context customer customer_name overdue w
    = (Returned {| customer_id := customer; overdue_amount := overdue |}, w')
    /\ heap w' !! context
       = Some {| messages := messages c ++ [m];
                 tools := [save_repayment_date_schema] |}
    /\ role m = "system"
    /\ content m = system_prompt customer_name overdue
    /\ fn_name (tool_function save_repayment_date_schema)
       = "save_repayment_date"
    /\ required (fn_parameters (tool_function save_repayment_date_schema))
       = ["repayment_date"; "amount"]
    /\ db w' = db w
    /\ trace w' = trace w ++
                  [ CtxAddMessage context m;
                    CtxSetTools context [save_repayment_date_schema] ]
    /\ db_updates (trace w') = db_updates (trace w).
Proof.
  intros Hc. rewrite CollectionProcessor_init_run.
  eexists _, _. split; [reflexivity|].
  simpl. rewrite !lookup_alter_eq, Hc. simpl.
  rewrite <- app_assoc. simpl.
  repeat split; try reflexivity.
  unfold db_updates. rewrite List.filter_app. simpl. apply app_nil_r.
Qed.

(* ===================================================================== *)
(** ** Runs of the process *)
(* ===================================================================== *)

Lemma serve_app context (l1 l2 : list Input) w :
  Main.serve context (l1 ++ l2) w
  = Main.serve context l2 (Main.serve context l1 w).
Proof.
  revert w. induction l1 as [|i l1 IH]; intros w; [reflexivity|].
  simpl. apply IH.
Qed.

Lemma on_client_connected_run context transport client w :
  Main.on_client_connected context transport client w
  = (Returned tt,
     snd (queue_frames [OpenAILLMContextFrame context]
            (snd (CollectionProcessor_init context Main.customer_id
                    Main.customer_name Main.overdue_amount
                    (snd (messages_clear context w)))))).
Proof. reflexivity. Qed.

(** What handling a function call does, by whether the name is registered. *)
Lemma call_function_registered context function_name tool_call_id args w self :
  llm_callbacks w !! function_name = Some self ->
  Main.handle context (FunctionCall function_name tool_call_id args) w
  = snd (save_repayment_date self function_name tool_call_id args
           llm_service context result_callback_handle w).
Proof.
  intros Hreg. simpl. unfold Main.call_function. rewrite Hreg. reflexivity.
Qed.

Lemma call_function_unregistered context function_name tool_call_id args w :
  llm_callbacks w !! function_name = None ->
  Main.handle context (FunctionCall function_name tool_call_id args) w = w.
Proof.
  intros Hreg. simpl. unfold Main.call_function. rewrite Hreg. reflexivity.
Qed.

(** No input changes the registered functions. *)
Lemma handle_callbacks context i w :
  llm_callbacks (Main.handle context i w) = llm_callbacks w.
Proof.
  destruct i as [client|client|function_name tool_call_id args|m];
    try reflexivity.
  destruct (llm_callbacks w !! function_name) as [self|] eqn:Hreg.
  - rewrite (call_function_registered _ _ _ _ _ _ Hreg).
    eapply invocation_callbacks, save_repayment_date_invocation.
  - rewrite (call_function_unregistered _ _ _ _ _ Hreg). reflexivity.
Qed.

Lemma serve_callbacks context inputs w :
  llm_callbacks (Main.serve context inputs w) = llm_callbacks w.
Proof.
  revert w. induction inputs as [|i inputs IH]; intros w; [reflexivity|].
  simpl. rewrite IH. apply handle_callbacks.
Qed.

Lemma db_updates_app (t1 t2 : list Event) :
  db_updates (t1 ++ t2) = db_updates t1 ++ db_updates t2.
Proof. apply List.filter_app. Qed.

(** Dialogue turns only add messages. *)
Lemma serve_turns context (turns : list Message) w :
  let w' := Main.serve context (map AggregatedTurn turns) w in
  db w' = db w
  /\ trace w' = trace w ++ map (CtxAddMessage context) turns.
Proof.
  revert w. induction turns as [|m turns IH]; intros w.
  - split; [reflexivity | symmetry; apply app_nil_r].
  - change (Main.serve context (map AggregatedTurn (m :: turns)) w)
      with (Main.serve context (map AggregatedTurn turns)
              (snd (add_message context m w))).
    destruct (IH (snd (add_message context m w))) as [Hdb Htrace].
    cbv zeta. split; [exact Hdb|]. rewrite Htrace.
    change (trace (snd (add_message context m w)))
      with (trace w ++ [CtxAddMessage context m]).
    rewrite <- app_assoc. reflexivity.
Qed.

Lemma db_updates_turns context (turns : list Message) :
  db_updates (map (CtxAddMessage context) turns) = [].
Proof. induction turns as [|m turns IH]; [reflexivity | exact IH]. Qed.

(** C8: a call in which the tool is never invoked (a connect, any number
    of dialogue turns, a disconnect) leaves the store as it was and sends
    it nothing.  The connect handler clears the messages, constructs the
    handler (one message, one tool list) and queues the context frame; the
    disconnect handler queues the end frame. *)
Theorem call_without_tool_writes_nothing
    context (client client' : nat) (turns : list Message) w :
  let w' := Main.serve context
              (ClientConnected client :: map AggregatedTurn turns
                 ++ [ClientDisconnected client']) w in
  db w' = db w
  /\ db_updates (trace w') = db_updates (trace w)
  /\ trace w' = trace w ++
                [ CtxMessagesClear context;
                  CtxAddMessage context
                    {| role := "system";
                       content := system_prompt Main.customer_name
                                    Main.overdue_amount |};
                  CtxSetTools context [save_repayment_date_schema];
                  TaskQueueFrames [OpenAILLMContextFrame context] ]
                ++ map (CtxAddMessage context) turns
                ++ [ TaskQueueFrames [EndFrame] ].
Proof.
  intros w'. subst w'.
  change (Main.serve context (ClientConnected client :: ?l) w)
    with (Main.serve context l
            (snd (Main.on_client_connected context websocket_transport
                    client w))).
  rewrite serve_app. rewrite on_client_connected_run. cbn [snd].
  set (w1 := snd (queue_frames _ _)).
  destruct (serve_turns context turns w1) as [Hdb Htrace].
  assert (Htrace1 : trace w1 = trace w ++
            [ CtxMessagesClear context;
              CtxAddMessage context
                {| role := "system";
                   content := system_prompt Main.customer_name
                                Main.overdue_amount |};
              CtxSetTools context [save_repayment_date_schema];
              TaskQueueFrames [OpenAILLMContextFrame context] ]).
  { subst w1. simpl. rewrite <- !app_assoc. reflexivity. }
  assert (Hfinal : trace (Main.serve context [ClientDisconnected client']
                            (Main.serve context (map AggregatedTurn turns) w1))
                   = trace w ++
                     [ CtxMessagesClear context;
                       CtxAddMessage context
                         {| role := "system";
                            content := system_prompt Main.customer_name
                                         Main.overdue_amount |};
                       CtxSetTools context [save_repayment_date_schema];
                       TaskQueueFrames [OpenAILLMContextFrame context] ]
                     ++ map (CtxAddMessage context) turns
                     ++ [ TaskQueueFrames [EndFrame] ]).
  { simpl. rewrite Htrace, Htrace1. rewrite <- !app_assoc. reflexivity. }
  split; [|split].
  - simpl. rewrite Hdb. reflexivity.
  - rewrite Hfinal. rewrite !db_updates_app, db_updates_turns. simpl.
    apply app_nil_r.
  - exact Hfinal.
Qed.

(** After a connect the context holds the one system message and the one
    tool, whatever it held before. *)
Lemma on_client_connected_context context transport client w c :
  heap w !! context = Some c ->
  heap (snd (Main.on_client_connected context transport client w)) !! context
  = Some {| messages :=
              [ {| role := "system";
                   content := system_prompt Main.customer_name
                                Main.overdue_amount |} ];
            tools := [save_repayment_date_schema] |}.
Proof.
  intros Hc. rewrite on_client_connected_run. simpl.
  rewrite !lookup_alter_eq, Hc. reflexivity.
Qed.

Lemma on_client_connected_trace context transport client w :
  trace (snd (Main.on_client_connected context transport client w))
  = trace w ++
    [ CtxMessagesClear context;
      CtxAddMessage context
        {| role := "system";
           content := system_prompt Main.customer_name Main.overdue_amount |};
      CtxSetTools context [save_repayment_date_schema];
      TaskQueueFrames [OpenAILLMContextFrame context] ].
Proof. rewrite on_client_connected_run. simpl. rewrite <- !app_assoc. reflexivity. Qed.

(** C5, as the code has it: the connect handler empties the message list
    and leaves the tools as they are; when it is done the context holds
    exactly one message, the new system message, so nothing of an earlier
    call is left, and the tools are the one schema the constructor
    installs.  No context is created: the frame the handler queues refers
    to the context it was given, the one [main] made. *)
Theorem connect_resets_messages context (client : nat) w c :
  heap w !! context = Some c ->
  heap (snd (messages_clear context w)) !! context
  = Some {| messages := []; tools := tools c |}
  /\ exists w',
      Main.on_client_connected context websocket_transport client w
      = (Returned tt, w')
      /\ heap w' !! context
         = Some {| messages :=
                     [ {| role := "system";
                          content := system_prompt "Chad Bailey"
                                       25000%float |} ];
                   tools := [save_repayment_date_schema] |}
      /\ dom (heap w') = dom (heap w)
      /\ trace w' = trace w ++
                    [ CtxMessagesClear context;
                      CtxAddMessage context
                        {| role := "system";
                           content := system_prompt "Chad Bailey"
                                        25000%float |};
                      CtxSetTools context [save_repayment_date_schema];
                      TaskQueueFrames [OpenAILLMContextFrame context] ].
Proof.
  intros Hc. split; [apply messages_clear_lookup, Hc|].
  eexists. split; [apply on_client_connected_run|]. split; [|split].
  - apply (on_client_connected_context context websocket_transport client w c Hc).
  - simpl. rewrite !dom_alter_L. reflexivity.
  - apply (on_client_connected_trace context websocket_transport client w).
Qed.

(** C10: the constructor replaces the tool list: whatever tools the
    context had, none included, afterwards it has exactly the one schema.
    So after a connect the tool is offered again and a call to it is within
    the model's contract, also when an earlier call had used it up. *)
Theorem connect_offers_tool_again
    context (customer customer_name : string) (overdue : float)
    (client : nat) w c :
  heap w !! context = Some c ->
  tools <$> heap (snd (CollectionProcessor_init context customer
                         customer_name overdue w)) !! context
  = Some [save_repayment_date_schema]
  /\ exists w' c',
      Main.on_client_connected context websocket_transport client w
      = (Returned tt, w')
      /\ heap w' !! context = Some c'
      /\ tools c' = [save_repayment_date_schema]
      /\ tool_offered c' "save_repayment_date" = true
      /\ forall tool_call_id args,
           llm_contract context
             [FunctionCall "save_repayment_date" tool_call_id args] w'
           = true.
Proof.
  intros Hc. split.
  - rewrite CollectionProcessor_init_run. simpl.
    rewrite !lookup_alter_eq, Hc. reflexivity.
  - pose proof (on_client_connected_context context websocket_transport
                  client w c Hc) as Hctx.
    rewrite on_client_connected_run in Hctx |- *. cbn [snd] in Hctx.
    eexists _, _. split; [reflexivity|]. split; [exact Hctx|].
    split; [reflexivity|]. split; [reflexivity|].
    intros tool_call_id args.
    cbn [llm_contract snd]. rewrite Hctx. reflexivity.
Qed.

(* --------------------------------------------------------------------- *)
(** *** Single use of the tool *)

Lemma llm_contract_cons context i inputs w :
  llm_contract context (i :: inputs) w
  = match i with
    | FunctionCall function_name _ _ =>
        match heap w !! context with
        | Some c => tool_offered c function_name
        | None => false
        end
    | _ => true
    end
    && llm_contract context inputs (Main.handle context i w).
Proof. reflexivity. Qed.

Lemma llm_contract_app context (l1 l2 : list Input) w :
  llm_contract context (l1 ++ l2) w
  = llm_contract context l1 w
    && llm_contract context l2 (Main.serve context l1 w).
Proof.
  revert w. induction l1 as [|i l1 IH]; intros w; [reflexivity|].
  cbn [app Main.serve]. rewrite !llm_contract_cons, IH.
  apply andb_assoc.
Qed.

(** With no tool listed, the contract admits no function call. *)
Lemma no_tool_no_call context function_name tool_call_id args inputs w c :
  heap w !! context = Some c -> tools c = [] ->
  llm_contract context
    (FunctionCall function_name tool_call_id args :: inputs) w = false.
Proof.
  intros Hc Htools. rewrite llm_contract_cons, Hc.
  unfold tool_offered. rewrite Htools. reflexivity.
Qed.

(** One input of a call in progress, handled while no tool is listed. *)
Lemma in_call_step context i w c :
  is_connect i = false ->
  llm_contract context [i] w = true ->
  heap w !! context = Some c -> tools c = [] ->
  is_function_call i = false
  /\ (exists c', heap (Main.handle context i w) !! context = Some c'
                 /\ tools c' = [])
  /\ db (Main.handle context i w) = db w
  /\ db_updates (trace (Main.handle context i w)) = db_updates (trace w).
Proof.
  intros Hconnect Hcontract Hc Htools.
  destruct i as [client|client|function_name tool_call_id args|m].
  - discriminate Hconnect.
  - split; [reflexivity|]. split; [exists c; auto|]. split; [reflexivity|].
    simpl. rewrite db_updates_app. apply app_nil_r.
  - rewrite (no_tool_no_call _ _ _ _ _ _ _ Hc Htools) in Hcontract.
    discriminate Hcontract.
  - split; [reflexivity|]. split.
    + eexists. split; [apply add_message_lookup, Hc | exact Htools].
    + split; [reflexivity|]. simpl. rewrite db_updates_app. apply app_nil_r.
Qed.

Lemma in_call_run context inputs :
  forall w c,
    forallb (fun i => negb (is_connect i)) inputs = true ->
    llm_contract context inputs w = true ->
    heap w !! context = Some c -> tools c = [] ->
    forallb (fun i => negb (is_function_call i)) inputs = true
    /\ (exists c', heap (Main.serve context inputs w) !! context = Some c'
                   /\ tools c' = [])
    /\ db (Main.serve context inputs w) = db w
    /\ db_updates (trace (Main.serve context inputs w))
       = db_updates (trace w).
Proof.
  induction inputs as [|i inputs IH]; intros w c Hconnect Hcontract Hc Htools.
  - split; [reflexivity|]. split; [exists c; auto|]. split; reflexivity.
  - cbn [forallb] in Hconnect. apply andb_prop in Hconnect as [Hi Hrest].
    apply negb_true_iff in Hi.
    rewrite llm_contract_cons in Hcontract.
    apply andb_prop in Hcontract as [Hguard Hcontract].
    assert (Hone : llm_contract context [i] w = true).
    { rewrite llm_contract_cons, Hguard. reflexivity. }
    destruct (in_call_step context i w c Hi Hone Hc Htools)
      as (Hnocall & (c1 & Hc1 & Htools1) & Hdb1 & Hupd1).
    destruct (IH _ c1 Hrest Hcontract Hc1 Htools1)
      as (Hnocalls & Hctx & Hdb & Hupd).
    cbn [forallb Main.serve]. rewrite Hnocall, Hnocalls.
    split; [reflexivity|]. split; [exact Hctx|].
    split; congruence.
Qed.

(** C2: after one invocation of the registered tool has returned, and as
    long as the language model keeps to its contract (it calls only tools
    the context lists), the rest of the call (any inputs up to the next
    connect) finds the tool list empty at every point, contains no function
    call at all, and sends nothing more to the store.  At the end of any
    such continuation a further function call is still outside the
    contract. *)
Theorem tool_is_single_use
    context function_name tool_call_id args self w w1 c
    (inputs : list Input) :
  heap w !! context = Some c ->
  llm_callbacks w !! function_name = Some self ->
  save_repayment_date self function_name tool_call_id args llm_service
    context result_callback_handle w = (Returned tt, w1) ->
  forallb (fun i => negb (is_connect i)) inputs = true ->
  llm_contract context inputs w1 = true ->
  Main.handle context (FunctionCall function_name tool_call_id args) w = w1
  /\ (forall handled rest, inputs = handled ++ rest ->
       exists c2, heap (Main.serve context handled w1) !! context = Some c2
                  /\ tools c2 = [])
  /\ forallb (fun i => negb (is_function_call i)) inputs = true
  /\ db_updates (trace (Main.serve context inputs w1))
     = db_updates (trace w1)
  /\ db (Main.serve context inputs w1) = db w1
  /\ forall function_name' tool_call_id' args',
       llm_contract context
         [FunctionCall function_name' tool_call_id' args']
         (Main.serve context inputs w1) = false.
Proof.
  intros Hc Hreg Hrun Hconnect Hcontract.
  split.
  { rewrite (call_function_registered _ _ _ _ _ _ Hreg), Hrun. reflexivity. }
  pose proof (save_repayment_date_invocation self function_name tool_call_id
                args llm_service context result_callback_handle w) as Hinv.
  rewrite Hrun in Hinv. cbn [fst snd] in Hinv.
  assert (Hc1 : exists c1, heap w1 !! context = Some c1 /\ tools c1 = []).
  { inversion Hinv; subst. simpl.
    rewrite !lookup_alter_eq, Hc. simpl. eauto. }
  destruct Hc1 as (c1 & Hc1 & Htools1).
  destruct (in_call_run context inputs w1 c1 Hconnect Hcontract Hc1 Htools1)
    as (Hnocalls & (c2 & Hc2 & Htools2) & Hdb & Hupd).
  split.
  { intros handled rest ->.
    rewrite forallb_app in Hconnect. apply andb_prop in Hconnect as [Hh _].
    rewrite llm_contract_app in Hcontract.
    apply andb_prop in Hcontract as [Hk _].
    destruct (in_call_run context handled w1 c1 Hh Hk Hc1 Htools1)
      as (_ & Hctx & _). exact Hctx. }
  split; [exact Hnocalls|]. split; [exact Hupd|].
  split; [exact Hdb|].
  intros function_name' tool_call_id' args'.
  apply (no_tool_no_call _ _ _ _ _ _ _ Hc2 Htools2).
Qed.

(* --------------------------------------------------------------------- *)
(** *** The customer of every call *)

Lemma main_run (s : S) :
  exists context w0,
    Main.main (boot s) = (Returned context, w0)
    /\ llm_callbacks w0
       = {[ "save_repayment_date" :=
              {| customer_id := Main.customer_id;
                 overdue_amount := Main.overdue_amount |} ]}
    /\ heap w0 !! context
       = Some {| messages :=
                   [ {| role := "system";
                        content := system_prompt Main.customer_name
                                     Main.overdue_amount |} ];
                 tools := [save_repayment_date_schema] |}
    /\ db w0 = s
    /\ trace w0
       = [ CtxAddMessage context
             {| role := "system";
                content := system_prompt Main.customer_name
                             Main.overdue_amount |};
           CtxSetTools context [save_repayment_date_schema] ].
Proof.
  eexists _, _. split; [reflexivity|]. simpl.
  rewrite !lookup_alter_eq, lookup_insert_eq.
  repeat split.
Qed.

(** The events one input adds are updates of the registered handlers'
    customers only. *)
Lemma handle_updates context i w (customer : string) (overdue : float) :
  (forall name self, llm_callbacks w !! name = Some self ->
                     customer_id self = customer
                     /\ overdue_amount self = overdue) ->
  exists new,
    trace (Main.handle context i w) = trace w ++ new
    /\ Forall (update_of customer overdue) new.
Proof.
  intros Hreg.
  destruct i as [client|client|function_name tool_call_id args|m].
  - eexists. split; [apply on_client_connected_trace|].
    repeat constructor.
  - eexists. split; [reflexivity|]. repeat constructor.
  - destruct (llm_callbacks w !! function_name) as [self|] eqn:Hself.
    + rewrite (call_function_registered _ _ _ _ _ _ Hself).
      destruct (Hreg _ _ Hself) as [Hid Hoverdue].
      destruct (save_repayment_date_invocation self function_name
                  tool_call_id args llm_service context
                  result_callback_handle w)
        as [key Hkey Hnone | d a e Hd Ha Hs | d a s' e Hd Ha Hs Hf
           | d a s' shown Hd Ha Hs Hf m].
      * exists []. split; [symmetry; apply app_nil_r | constructor].
      * eexists. split; [reflexivity|].
        repeat constructor; simpl; congruence.
      * eexists. split; [reflexivity|].
        repeat constructor; simpl; congruence.
      * eexists. split; [reflexivity|].
        repeat constructor; simpl; congruence.
    + rewrite (call_function_unregistered _ _ _ _ _ Hself).
      exists []. split; [symmetry; apply app_nil_r | constructor].
  - eexists. split; [reflexivity|]. repeat constructor.
Qed.

Lemma serve_updates context inputs (customer : string) (overdue : float) :
  forall w,
    (forall name self, llm_callbacks w !! name = Some self ->
                       customer_id self = customer
                       /\ overdue_amount self = overdue) ->
    Forall (update_of customer overdue) (trace w) ->
    Forall (update_of customer overdue)
      (trace (Main.serve context inputs w)).
Proof.
  induction inputs as [|i inputs IH]; intros w Hreg Htrace; [exact Htrace|].
  cbn [Main.serve]. apply IH.
  - rewrite handle_callbacks. exact Hreg.
  - destruct (handle_updates context i w customer overdue Hreg)
      as (new & -> & Hnew).
    apply Forall_app. split; assumption.
Qed.

(** C9: whatever store the process starts on and whatever inputs arrive,
    the function registered under [save_repayment_date] stays the handler
    for customer ["chad_bailey"] with overdue amount 25000.00, every update
    ever sent is for document ["chad_bailey"] of [users] and carries that
    overdue amount, and a connect by any client does the same thing: it
    installs the system message for "Chad Bailey" and 25000.00.  The
    client that connects does not enter into it. *)
Theorem every_call_is_for_chad_bailey (s : S) (inputs : list Input) :
  exists context w0,
    Main.main (boot s) = (Returned context, w0)
    /\ llm_callbacks (Main.serve context inputs w0)
       = {[ "save_repayment_date" :=
              {| customer_id := "chad_bailey";
                 overdue_amount := 25000%float |} ]}
    /\ Forall (update_of "chad_bailey" 25000%float)
         (trace (Main.serve context inputs w0))
    /\ forall client : nat,
         trace (snd (Main.on_client_connected context websocket_transport
                       client (Main.serve context inputs w0)))
         = trace (Main.serve context inputs w0) ++
           [ CtxMessagesClear context;
             CtxAddMessage context
               {| role := "system";
                  content := system_prompt "Chad Bailey" 25000%float |};
             CtxSetTools context [save_repayment_date_schema];
             TaskQueueFrames [OpenAILLMContextFrame context] ]
         /\ forall client' : nat,
              Main.on_client_connected context websocket_transport client
                (Main.serve context inputs w0)
              = Main.on_client_connected context websocket_transport client'
                  (Main.serve context inputs w0).
Proof.
  destruct (main_run s) as (context & w0 & Hmain & Hreg & _ & _ & Htrace).
  exists context, w0. split; [exact Hmain|]. split; [|split].
  - rewrite serve_callbacks. exact Hreg.
  - apply serve_updates.
    + intros name self Hself. rewrite Hreg in Hself.
      apply lookup_singleton_Some in Hself as [_ <-]. split; reflexivity.
    + rewrite Htrace. repeat constructor.
  - intros client. split; [apply on_client_connected_trace | reflexivity].
Qed.

End Properties.

(* ===================================================================== *)
(** ** More on the tool invocation *)
(* ===================================================================== *)

Section Invocation.
Context {S : Type} {store : RecordStore S} {runtime : PyRuntime}
  {model : LanguageModel}.

Implicit Types (w : World S) (c : OpenAILLMContext) (context : loc).
Implicit Types (self : CollectionProcessor) (args : gmap string pyvalue).

(** X1: the invocation returns exactly when both arguments are there, the
    store accepts the update, the amount can be formatted, and the call on
    the language model, made after the update, the closing message and the
    emptying of the tools, returns. *)
Theorem invocation_returns_iff
    self function_name tool_call_id args llm context result_callback w :
  fst (save_repayment_date self function_name tool_call_id args llm context
         result_callback w) = Returned tt
  <-> exists (d a : pyvalue) (s' : S) (shown : string),
        args !! "repayment_date" = Some d
        /\ args !! "amount" = Some a
        /\ store_update (db w) "users" (customer_id self)
             (commitment_fields (overdue_amount self) d a d a) = Returned s'
        /\ py_format_2f a = Returned shown
        /\ process_frame_outcome llm (OpenAILLMContextFrame context)
             DOWNSTREAM
             (trace w ++
              [ DbUpdate "users" (customer_id self)
                  (commitment_fields (overdue_amount self) d a d a) true;
                CtxAddMessage context
                  {| role := "system";
                     content := closing_prompt shown (py_str d) shown
                                  (py_str d) (py_str d) |};
                CtxSetTools context [] ])
           = Returned tt.
Proof.
  pose proof (save_repayment_date_invocation self function_name tool_call_id
                args llm context result_callback w) as Hinv.
  split.
  - intros Hret. rewrite Hret in Hinv.
    inversion Hinv as [| | | d a s' shown Hd Ha Hs Hf m Hr Hw]; subst.
    exists d, a, s', shown. auto.
  - intros (d & a & s' & shown & Hd & Ha & Hs & Hf & Hr).
    destruct Hinv as [key Hkey Hnone | d0 a0 e Hd0 Ha0 Hs0
                     | d0 a0 s0 e Hd0 Ha0 Hs0 Hf0
                     | d0 a0 s0 shown0 Hd0 Ha0 Hs0 Hf0 m].
    + destruct Hkey as [-> | ->]; congruence.
    + assert (d0 = d) as -> by congruence.
      assert (a0 = a) as -> by congruence. congruence.
    + assert (d0 = d) as -> by congruence.
      assert (a0 = a) as -> by congruence. congruence.
    + assert (d0 = d) as -> by congruence.
      assert (a0 = a) as -> by congruence.
      assert (shown0 = shown) as -> by congruence.
      subst m. exact Hr.
Qed.

(** X2: an invocation that raises has either changed nothing of the heap
    and handed no frame to the language model (the raise came from [args],
    the store or the f-string), or has done all its work, closing message
    appended and tools emptied, and the raise is that of the call on the
    language model, its last event.  The registered functions are as
    before in both cases. *)
Theorem failed_invocation_keeps_context
    self function_name tool_call_id args llm context result_callback w
    (e : exn) (w' : World S) :
  save_repayment_date self function_name tool_call_id args llm context
    result_callback w = (Raised e, w') ->
  llm_callbacks w' = llm_callbacks w
  /\ (heap w' = heap w
      /\ List.filter is_process_frame (trace w')
         = List.filter is_process_frame (trace w)
      \/ exists (m : Message) (before : list Event),
          heap w'
          = alter (fun c => {| messages := messages c; tools := [] |})
              context
              (alter (fun c => {| messages := messages c ++ [m];
                                  tools := tools c |}) context (heap w))
          /\ role m = "system"
          /\ trace w' = before ++
                        [ LlmProcessFrame (OpenAILLMContextFrame context)
                            DOWNSTREAM ]
          /\ process_frame_outcome llm (OpenAILLMContextFrame context)
               DOWNSTREAM before = Raised e).
Proof.
  intros Hrun.
  pose proof (save_repayment_date_invocation self function_name tool_call_id
                args llm context result_callback w) as Hinv.
  rewrite Hrun in Hinv. cbn [fst snd] in Hinv.
  inversion Hinv as [key Hkey Hnone | d a e0 Hd Ha Hs
                    | d a s' e0 Hd Ha Hs Hf
                    | d a s' shown Hd Ha Hs Hf m Hr Hw]; subst.
  - split; [reflexivity|]. left. split; reflexivity.
  - split; [reflexivity|]. left. split; [reflexivity|].
    simpl. rewrite List.filter_app. simpl. apply app_nil_r.
  - split; [reflexivity|]. left. split; [reflexivity|].
    simpl. rewrite List.filter_app. simpl. apply app_nil_r.
  - split; [reflexivity|]. right.
    exists m, (trace w ++
               [ DbUpdate "users" (customer_id self)
                   (commitment_fields (overdue_amount self) d a d a) true;
                 CtxAddMessage context m;
                 CtxSetTools context [] ]).
    split; [reflexivity|]. split; [reflexivity|]. split.
    + simpl. rewrite <- app_assoc. reflexivity.
    + reflexivity.
Qed.

(** X3: when the amount is there but [,.2f] cannot format it (a string,
    [None], a list, an int beyond the doubles), the update has already been
    sent: if the store accepted it, the store keeps it, the handler raises
    the formatting error, and the context is as before, tools included. *)
Theorem unformattable_amount_is_stored
    self function_name tool_call_id args llm context result_callback w
    (d a : pyvalue) (s' : S) (e : exn) :
  args !! "repayment_date" = Some d ->
  args !! "amount" = Some a ->
  store_update (db w) "users" (customer_id self)
    (commitment_fields (overdue_amount self) d a d a) = Returned s' ->
  py_format_2f a = Raised e ->
  exists w',
    save_repayment_date self function_name tool_call_id args llm context
      result_callback w = (Raised e, w')
    /\ db w' = s'
    /\ heap w' = heap w
    /\ trace w' = trace w ++
                  [ DbUpdate "users" (customer_id self)
                      (commitment_fields (overdue_amount self) d a d a)
                      true ].
Proof.
  intros Hd Ha Hs Hf.
  destruct (save_repayment_date_cases self function_name tool_call_id args
              llm context result_callback w) as (r & w' & Hrun & Hinv).
  destruct Hinv as [key Hkey Hnone | d0 a0 e0 Hd0 Ha0 Hs0
                   | d0 a0 s0 e0 Hd0 Ha0 Hs0 Hf0
                   | d0 a0 s0 shown0 Hd0 Ha0 Hs0 Hf0 m].
  - destruct Hkey as [-> | ->]; congruence.
  - assert (d0 = d) as -> by congruence.
    assert (a0 = a) as -> by congruence. congruence.
  - assert (d0 = d) as -> by congruence.
    assert (a0 = a) as -> by congruence.
    assert (s0 = s') as -> by congruence.
    assert (e0 = e) as -> by congruence.
    eexists. split; [exact Hrun|]. repeat split.
  - assert (a0 = a) as -> by congruence. congruence.
Qed.

(** X4: with an argument missing the handler raises [KeyError] for
    [repayment_date] if that one is missing, whether or not [amount] is
    there too, and for [amount] otherwise; the world is untouched. *)
Theorem missing_argument_key
    self function_name tool_call_id args llm context result_callback w :
  args !! "repayment_date" = None \/ args !! "amount" = None ->
  save_repayment_date self function_name tool_call_id args llm context
    result_callback w = (Raised (KeyError (first_missing_key args)), w).
Proof.
  intros Hmissing.
  unfold save_repayment_date, update_data, getitem, bind, raise,
    first_missing_key.
  destruct (args !! "repayment_date") as [d|]; [|reflexivity].
  destruct Hmissing as [Hd | Ha]; [discriminate Hd|].
  rewrite Ha. reflexivity.
Qed.

(** X6: an invocation works on the context it is given and on the
    customer's document, nothing else: every other object of the heap is
    as before, and every event it adds is an update of that document, a
    system message or an empty tool list for that context, or that
    context's frame sent downstream; it queues nothing on the task and
    clears no messages. *)
Theorem invocation_footprint
    self function_name tool_call_id args llm context result_callback w :
  (forall l : loc,
      l <> context ->
      heap (snd (save_repayment_date self function_name tool_call_id args
                   llm context result_callback w)) !! l = heap w !! l)
  /\ exists new : list Event,
      trace (snd (save_repayment_date self function_name tool_call_id args
                    llm context result_callback w)) = trace w ++ new
      /\ Forall (invocation_event self context) new.
Proof.
  destruct (save_repayment_date_invocation self function_name tool_call_id
              args llm context result_callback w)
    as [key Hkey Hnone | d a e Hd Ha Hs | d a s' e Hd Ha Hs Hf
       | d a s' shown Hd Ha Hs Hf m].
  - split; [reflexivity|]. exists []. split; [symmetry; apply app_nil_r|].
    constructor.
  - split; [reflexivity|]. eexists. split; [reflexivity|].
    repeat constructor.
  - split; [reflexivity|]. eexists. split; [reflexivity|].
    repeat constructor.
  - split.
    + intros l Hl. simpl. rewrite !lookup_alter_ne by congruence.
      reflexivity.
    + eexists. split; [reflexivity|]. repeat constructor.
Qed.

(** X7: the system message the constructor appends mentions the customer's
    name and the overdue amount in the [,.2f] format, for every name and
    amount. *)
Theorem constructor_prompt_mentions_customer
    context (customer customer_name : string) (overdue : float) w :
  exists m : Message,
    trace (snd (CollectionProcessor_init context customer customer_name
                  overdue w))
    = trace w ++ [ CtxAddMessage context m;
                   CtxSetTools context [save_repayment_date_schema] ]
    /\ role m = "system"
    /\ mentions customer_name (content m)
    /\ mentions (format_2f overdue) (content m).
Proof.
  eexists. split.
  - rewrite CollectionProcessor_init_run. simpl.
    rewrite <- app_assoc. reflexivity.
  - split; [reflexivity|]. split.
    + apply system_prompt_mentions_name.
    + apply system_prompt_mentions_amount.
Qed.

End Invocation.

(* ===================================================================== *)
(** ** More on runs of the process *)
(* ===================================================================== *)

Section Runs.
Context {S : Type} {store : RecordStore S} {runtime : PyRuntime}
  {model : LanguageModel}.

Implicit Types (w : World S) (c : OpenAILLMContext) (context : loc).
Implicit Types (self : CollectionProcessor) (args : gmap string pyvalue).

(** What one input does to the context: a connect resets it, anything
    else may add messages and may withdraw the tools. *)
Lemma handle_context context i w c :
  heap w !! context = Some c ->
  exists c',
    heap (Main.handle context i w) !! context = Some c'
    /\ if is_connect i
       then c' = {| messages :=
                      [ {| role := "system";
                           content := system_prompt Main.customer_name
                                        Main.overdue_amount |} ];
                    tools := [save_repayment_date_schema] |}
       else (exists more, messages c' = messages c ++ more)
            /\ (tools c' = tools c \/ tools c' = []).
Proof.
  intros Hc.
  destruct i as [client|client|function_name tool_call_id args|m].
  - eexists. split; [|reflexivity].
    apply (on_client_connected_context context websocket_transport client
             w c Hc).
  - exists c. split; [exact Hc|]. split; [|left; reflexivity].
    exists []. symmetry. apply app_nil_r.
  - cbn [Main.handle is_connect]. unfold Main.call_function.
    destruct (llm_callbacks w !! function_name) as [self|].
    + destruct (save_repayment_date_invocation self function_name
                  tool_call_id args llm_service context
                  result_callback_handle w)
        as [key Hkey Hnone | d a e Hd Ha Hs | d a s' e Hd Ha Hs Hf
           | d a s' shown Hd Ha Hs Hf m];
        try (exists c; split; [exact Hc|]; split;
             [exists []; symmetry; apply app_nil_r | left; reflexivity]).
      eexists. split.
      * simpl. rewrite !lookup_alter_eq, Hc. reflexivity.
      * split; [eexists; reflexivity | right; reflexivity].
    + exists c. split; [exact Hc|]. split; [|left; reflexivity].
      exists []. symmetry. apply app_nil_r.
  - eexists. split; [apply add_message_lookup, Hc|].
    split; [eexists; reflexivity | left; reflexivity].
Qed.

(** X8: within a call (inputs without a connect) the message list of the
    context only grows, by appending, and the tool list is either what it
    was or has been emptied: a call never adds a tool and never drops or
    rewrites a message. *)
Theorem call_only_appends_messages context (inputs : list Input) w c :
  heap w !! context = Some c ->
  forallb (fun i => negb (is_connect i)) inputs = true ->
  exists c' more,
    heap (Main.serve context inputs w) !! context = Some c'
    /\ messages c' = messages c ++ more
    /\ (tools c' = tools c \/ tools c' = []).
Proof.
  revert w c. induction inputs as [|i inputs IH]; intros w c Hc Hcall.
  - exists c, []. split; [exact Hc|].
    split; [symmetry; apply app_nil_r | left; reflexivity].
  - cbn [forallb] in Hcall. apply andb_prop in Hcall as [Hi Hrest].
    apply negb_true_iff in Hi.
    destruct (handle_context context i w c Hc) as (c1 & Hc1 & Hstep).
    rewrite Hi in Hstep. destruct Hstep as [(more1 & Hm1) Ht1].
    destruct (IH _ c1 Hc1 Hrest) as (c' & more & Hc' & Hm & Ht).
    exists c', (more1 ++ more). split; [exact Hc'|]. split.
    + rewrite Hm, Hm1. symmetry. apply app_assoc.
    + destruct Ht as [Ht | Ht]; [|right; exact Ht].
      rewrite Ht. exact Ht1.
Qed.

(** One input neither creates nor removes a context, and touches no
    context but the one the closures captured. *)
Lemma handle_heap context i w :
  dom (heap (Main.handle context i w)) = dom (heap w)
  /\ forall l : loc,
       l <> context -> heap (Main.handle context i w) !! l = heap w !! l.
Proof.
  destruct i as [client|client|function_name tool_call_id args|m].
  - split.
    + simpl. rewrite !dom_alter_L. reflexivity.
    + intros l Hl. simpl. rewrite !lookup_alter_ne by congruence.
      reflexivity.
  - split; reflexivity.
  - cbn [Main.handle]. unfold Main.call_function.
    destruct (llm_callbacks w !! function_name) as [self|];
      [|split; reflexivity].
    destruct (save_repayment_date_invocation self function_name
                tool_call_id args llm_service context
                result_callback_handle w)
      as [key Hkey Hnone | d a e Hd Ha Hs | d a s' e Hd Ha Hs Hf
         | d a s' shown Hd Ha Hs Hf m];
      try (split; reflexivity).
    split.
    + simpl. rewrite !dom_alter_L. reflexivity.
    + intros l Hl. simpl. rewrite !lookup_alter_ne by congruence.
      reflexivity.
  - split.
    + simpl. rewrite dom_alter_L. reflexivity.
    + intros l Hl. simpl. rewrite lookup_alter_ne by congruence.
      reflexivity.
Qed.

(** The same for a whole run. *)
Lemma serve_heap context (inputs : list Input) w :
  dom (heap (Main.serve context inputs w)) = dom (heap w)
  /\ forall l : loc,
       l <> context ->
       heap (Main.serve context inputs w) !! l = heap w !! l.
Proof.
  revert w. induction inputs as [|i inputs IH]; intros w.
  - split; reflexivity.
  - cbn [Main.serve].
    destruct (IH (Main.handle context i w)) as [Hdom Hother].
    destruct (handle_heap context i w) as [Hdom1 Hother1].
    split; [congruence|].
    intros l Hl. rewrite Hother, Hother1 by exact Hl. reflexivity.
Qed.

(** X9: whatever arrives, the process works on the one context its
    closures captured: a run neither creates nor removes an object of the
    heap, so that context is there after the run exactly if it was there
    before, and every other object is exactly as it was. *)
Theorem run_keeps_to_its_context context (inputs : list Input) w :
  dom (heap (Main.serve context inputs w)) = dom (heap w)
  /\ (is_Some (heap (Main.serve context inputs w) !! context)
      <-> is_Some (heap w !! context))
  /\ forall l : loc,
       l <> context ->
       heap (Main.serve context inputs w) !! l = heap w !! l.
Proof.
  destruct (serve_heap context inputs w) as [Hdom Hother].
  split; [exact Hdom|]. split; [|exact Hother].
  rewrite <- !(elem_of_dom (D := gset loc)), Hdom. reflexivity.
Qed.

(** X10: a connect wipes whatever earlier inputs did to the context: the
    context after a connect is the same whether the connect comes first or
    after any run, and whoever the client is. *)
Theorem connect_forgets_earlier_calls
    context (inputs : list Input) (client client' : nat) w :
  heap (Main.handle context (ClientConnected client)
          (Main.serve context inputs w)) !! context
  = heap (Main.handle context (ClientConnected client') w) !! context.
Proof.
  destruct (heap w !! context) as [c|] eqn:Hc.
  - assert (Hrun : exists c', heap (Main.serve context inputs w) !! context
                              = Some c').
    { apply (elem_of_dom (D := gset loc)).
      rewrite (proj1 (serve_heap context inputs w)).
      apply elem_of_dom. eauto. }
    destruct Hrun as (c' & Hc').
    cbn [Main.handle].
    rewrite (on_client_connected_context _ _ _ _ _ Hc').
    rewrite (on_client_connected_context _ _ _ _ _ Hc).
    reflexivity.
  - assert (Hrun : heap (Main.serve context inputs w) !! context = None).
    { apply (not_elem_of_dom (D := gset loc)).
      rewrite (proj1 (serve_heap context inputs w)).
      apply not_elem_of_dom. exact Hc. }
    simpl. rewrite !lookup_alter_eq, Hrun, Hc. reflexivity.
Qed.

(** The store requests one input adds: none, or one if it is a function
    call. *)
Lemma handle_db_updates context i w :
  exists new : list Event,
    db_updates (trace (Main.handle context i w))
    = db_updates (trace w) ++ new
    /\ length new <= (if is_function_call i then 1 else 0)
    /\ (is_function_call i = false -> db (Main.handle context i w) = db w).
Proof.
  destruct i as [client|client|function_name tool_call_id args|m].
  - exists []. split; [|split; [auto | reflexivity]].
    cbn [Main.handle]. rewrite on_client_connected_trace, db_updates_app.
    reflexivity.
  - exists []. split; [|split; [auto | reflexivity]].
    simpl. apply db_updates_app.
  - cbn [Main.handle is_function_call]. unfold Main.call_function.
    destruct (llm_callbacks w !! function_name) as [self|].
    + destruct (save_repayment_date_invocation self function_name
                  tool_call_id args llm_service context
                  result_callback_handle w)
        as [key Hkey Hnone | d a e Hd Ha Hs | d a s' e Hd Ha Hs Hf
           | d a s' shown Hd Ha Hs Hf m].
      * exists []. split; [symmetry; apply app_nil_r|].
        split; [auto | discriminate].
      * eexists. split; [simpl; apply db_updates_app|].
        split; [auto | discriminate].
      * eexists. split; [simpl; apply db_updates_app|].
        split; [auto | discriminate].
      * eexists. split; [simpl; apply db_updates_app|].
        split; [auto | discriminate].
    + exists []. split; [symmetry; apply app_nil_r|].
      split; [auto | discriminate].
  - exists []. split; [|split; [auto | reflexivity]].
    simpl. apply db_updates_app.
Qed.

(** X11: a run sends the store at most one update per function call among
    its inputs; connects, disconnects and dialogue turns send none. *)
Theorem at_most_one_update_per_function_call
    context (inputs : list Input) w :
  length (db_updates (trace (Main.serve context inputs w)))
  <= length (db_updates (trace w))
     + length (List.filter is_function_call inputs).
Proof.
  revert w. induction inputs as [|i inputs IH]; intros w.
  - simpl. rewrite Nat.add_0_r. constructor.
  - cbn [Main.serve List.filter].
    destruct (handle_db_updates context i w) as (new & Hnew & Hlen & _).
    specialize (IH (Main.handle context i w)).
    rewrite Hnew, length_app in IH.
    destruct (is_function_call i); simpl in *; lia.
Qed.

(** X12: inputs without a function call, in any number and order
    (several connects and disconnects, turns in between), leave the store
    as it is and send it nothing. *)
Theorem run_without_calls_keeps_store context (inputs : list Input) w :
  forallb (fun i => negb (is_function_call i)) inputs = true ->
  db (Main.serve context inputs w) = db w
  /\ db_updates (trace (Main.serve context inputs w))
     = db_updates (trace w).
Proof.
  revert w. induction inputs as [|i inputs IH]; intros w Hcalls.
  - split; reflexivity.
  - cbn [forallb] in Hcalls. apply andb_prop in Hcalls as [Hi Hrest].
    apply negb_true_iff in Hi.
    destruct (handle_db_updates context i w) as (new & Hnew & Hlen & Hdb).
    rewrite Hi in Hlen. destruct new as [|? ?]; [|simpl in Hlen; lia].
    rewrite app_nil_r in Hnew.
    destruct (IH (Main.handle context i w) Hrest) as [Hdb' Hupd'].
    cbn [Main.serve]. split.
    + rewrite Hdb'. apply Hdb, Hi.
    + rewrite Hupd'. exact Hnew.
Qed.

(** X13: [main] on any world: it creates one context, at an address that
    was free, holding the system message for Chad Bailey and the one tool;
    it registers the handler under [save_repayment_date]; it leaves every
    other object of the heap and the store alone, and its only events are
    the constructor's two. *)
Theorem main_sets_up_one_context w :
  exists context w',
    Main.main w = (Returned context, w')
    /\ heap w !! context = None
    /\ heap w' !! context
       = Some {| messages :=
                   [ {| role := "system";
                        content := system_prompt "Chad Bailey" 25000%float |} ];
                 tools := [save_repayment_date_schema] |}
    /\ (forall l : loc, l <> context -> heap w' !! l = heap w !! l)
    /\ llm_callbacks w'
       = <["save_repayment_date" :=
             {| customer_id := "chad_bailey";
                overdue_amount := 25000%float |}]> (llm_callbacks w)
    /\ db w' = db w
    /\ trace w' = trace w ++
                  [ CtxAddMessage context
                      {| role := "system";
                         content := system_prompt "Chad Bailey"
                                      25000%float |};
                    CtxSetTools context [save_repayment_date_schema] ].
Proof.
  eexists _, _. split; [reflexivity|]. simpl.
  split; [apply (not_elem_of_dom (D := gset loc)), is_fresh|].
  split; [rewrite !lookup_alter_eq, lookup_insert_eq; reflexivity|].
  split.
  { intros l Hl. rewrite !lookup_alter_ne, lookup_insert_ne by congruence.
    reflexivity. }
  split; [reflexivity|]. split; [reflexivity|].
  rewrite <- app_assoc. reflexivity.
Qed.

(** One input only adds to the trace. *)
Lemma handle_trace_extends context i w :
  exists new : list Event, trace (Main.handle context i w) = trace w ++ new.
Proof.
  destruct i as [client|client|function_name tool_call_id args|m].
  - eexists. apply on_client_connected_trace.
  - eexists. reflexivity.
  - cbn [Main.handle]. unfold Main.call_function.
    destruct (llm_callbacks w !! function_name) as [self|].
    + destruct (save_repayment_date_invocation self function_name
                  tool_call_id args llm_service context
                  result_callback_handle w);
        try (eexists; reflexivity).
      exists []. symmetry. apply app_nil_r.
    + exists []. symmetry. apply app_nil_r.
  - eexists. reflexivity.
Qed.

(** The shape of the context is kept by every run: the constructor's
    system message first, and no tool or the one tool. *)
Lemma run_context_shape context (inputs : list Input) :
  forall w c,
    heap w !! context = Some c ->
    (exists rest,
        messages c
        = {| role := "system";
             content := system_prompt Main.customer_name
                          Main.overdue_amount |} :: rest) ->
    (tools c = [save_repayment_date_schema] \/ tools c = []) ->
    exists c' rest,
      heap (Main.serve context inputs w) !! context = Some c'
      /\ messages c'
         = {| role := "system";
              content := system_prompt Main.customer_name
                           Main.overdue_amount |} :: rest
      /\ (tools c' = [save_repayment_date_schema] \/ tools c' = []).
Proof.
  induction inputs as [|i inputs IH]; intros w c Hc Hfirst Htools.
  - destruct Hfirst as (rest & Hrest). exists c, rest. auto.
  - cbn [Main.serve].
    destruct (handle_context context i w c Hc) as (c1 & Hc1 & Hstep).
    apply (IH _ c1 Hc1).
    + destruct (is_connect i).
      * subst c1. eexists. reflexivity.
      * destruct Hstep as [(more & Hmore) _].
        destruct Hfirst as (rest & Hrest).
        exists (rest ++ more). rewrite Hmore, Hrest. reflexivity.
    + destruct (is_connect i).
      * subst c1. left. reflexivity.
      * destruct Hstep as [_ [Ht | Ht]]; [rewrite Ht; exact Htools|].
        right. exact Ht.
Qed.

(** X14: from start-up on and whatever arrives, the context is there and
    its first message is the system message for Chad Bailey and 25000.00:
    dialogue turns and the closing instruction come after it, and every
    connect puts it back. *)
Theorem persona_message_stays_first (s : S) (inputs : list Input) :
  exists context w0,
    Main.main (boot s) = (Returned context, w0)
    /\ exists c rest,
        heap (Main.serve context inputs w0) !! context = Some c
        /\ messages c
           = {| role := "system";
                content := system_prompt "Chad Bailey" 25000%float |}
             :: rest.
Proof.
  destruct (main_run s) as (context & w0 & Hmain & _ & Hc & _).
  exists context, w0. split; [exact Hmain|].
  destruct (run_context_shape context inputs w0 _ Hc) as (c & rest & H1 & H2 & _).
  - eexists. reflexivity.
  - left. reflexivity.
  - exists c, rest. split; [exact H1 | exact H2].
Qed.

(** X15: from start-up on and whatever arrives, the tool list of the
    context is empty or is the one schema [save_repayment_date]: it never
    holds two tools and never another one. *)
Theorem never_more_than_the_one_tool (s : S) (inputs : list Input) :
  exists context w0,
    Main.main (boot s) = (Returned context, w0)
    /\ exists c,
        heap (Main.serve context inputs w0) !! context = Some c
        /\ (tools c = [save_repayment_date_schema] \/ tools c = []).
Proof.
  destruct (main_run s) as (context & w0 & Hmain & _ & Hc & _).
  exists context, w0. split; [exact Hmain|].
  destruct (run_context_shape context inputs w0 _ Hc) as (c & rest & H1 & _ & H3).
  - eexists. reflexivity.
  - left. reflexivity.
  - exists c. split; [exact H1 | exact H3].
Qed.

(** When one input leaves the context without tools, either it had none
    before or the store has just accepted an update. *)
Lemma handle_withdraws_after_record context i w c c' :
  heap w !! context = Some c ->
  (forall name self, llm_callbacks w !! name = Some self ->
                     customer_id self = "chad_bailey") ->
  heap (Main.handle context i w) !! context = Some c' ->
  tools c' = [] ->
  tools c = []
  \/ exists data, In (DbUpdate "users" "chad_bailey" data true)
                     (trace (Main.handle context i w)).
Proof.
  intros Hc Hreg Hc' Htools.
  destruct i as [client|client|function_name tool_call_id args|m].
  - cbn [Main.handle] in Hc'.
    rewrite (on_client_connected_context _ _ _ _ _ Hc) in Hc'.
    injection Hc' as <-. discriminate Htools.
  - left. simpl in Hc'. congruence.
  - cbn [Main.handle] in Hc' |- *. unfold Main.call_function in Hc' |- *.
    destruct (llm_callbacks w !! function_name) as [self|] eqn:Hself;
      [|left; congruence].
    pose proof (Hreg _ _ Hself) as Hid.
    destruct (save_repayment_date_invocation self function_name
                tool_call_id args llm_service context
                result_callback_handle w)
      as [key Hkey Hnone | d a e Hd Ha Hs | d a s' e Hd Ha Hs Hf
         | d a s' shown Hd Ha Hs Hf m0];
      try (left; simpl in Hc'; congruence).
    right. eexists. cbn [trace]. rewrite <- Hid.
    apply in_or_app. right. apply in_eq.
  - left. cbn [Main.handle] in Hc'.
    rewrite (add_message_lookup _ _ _ _ Hc) in Hc'.
    injection Hc' as <-. exact Htools.
Qed.

Lemma run_withdraws_after_record context (inputs : list Input) :
  forall w c,
    heap w !! context = Some c ->
    (forall name self, llm_callbacks w !! name = Some self ->
                       customer_id self = "chad_bailey") ->
    (tools c = [] ->
     exists data, In (DbUpdate "users" "chad_bailey" data true) (trace w)) ->
    exists c',
      heap (Main.serve context inputs w) !! context = Some c'
      /\ (tools c' = [] ->
          exists data, In (DbUpdate "users" "chad_bailey" data true)
                         (trace (Main.serve context inputs w))).
Proof.
  induction inputs as [|i inputs IH]; intros w c Hc Hreg Hinv.
  - exists c. auto.
  - cbn [Main.serve].
    destruct (handle_context context i w c Hc) as (c1 & Hc1 & _).
    apply (IH _ c1 Hc1).
    + rewrite handle_callbacks. exact Hreg.
    + intros Htools1.
      destruct (handle_withdraws_after_record context i w c c1 Hc Hreg Hc1
                  Htools1) as [Htools | Hdone]; [|exact Hdone].
      destruct (Hinv Htools) as (data & Hdata).
      destruct (handle_trace_extends context i w) as (new & ->).
      exists data. apply in_or_app. left. exact Hdata.
Qed.

(** X16: from start-up on and whatever arrives, the context is without
    its tool only if the store has accepted an update for [chad_bailey]:
    the tool is never withdrawn before a commitment is on record. *)
Theorem tool_withdrawn_only_after_record (s : S) (inputs : list Input) :
  exists context w0,
    Main.main (boot s) = (Returned context, w0)
    /\ exists c,
        heap (Main.serve context inputs w0) !! context = Some c
        /\ (tools c = [] ->
            exists data,
              In (DbUpdate "users" "chad_bailey" data true)
                 (trace (Main.serve context inputs w0))).
Proof.
  destruct (main_run s) as (context & w0 & Hmain & Hreg & Hc & _).
  exists context, w0. split; [exact Hmain|].
  apply (run_withdraws_after_record context inputs w0 _ Hc).
  - intros name self Hself. rewrite Hreg in Hself.
    apply lookup_singleton_Some in Hself as [_ <-]. reflexivity.
  - discriminate.
Qed.

End Runs.

(* ===================================================================== *)
(** ** The handler on the Firestore client *)
(* ===================================================================== *)

Section OnFirestore.
Context {S : Type} {documents : RecordStore S} {runtime : PyRuntime}
  {model : LanguageModel}.

Implicit Types (w : World (FirestoreClient S)) (context : loc).
Implicit Types (self : CollectionProcessor) (args : gmap string pyvalue).

(** The update dict of the handler carries the server-timestamp marker in
    the entry it hands to [ArrayUnion] (line 104): the client refuses it,
    whatever the date, the amount and the document. *)
Lemma commitment_is_refused (client : FirestoreClient S)
    (collection document : string) (overdue : float)
    (d a d' a' : pyvalue) :
  store_update client collection document
    (commitment_fields overdue d a d' a') = Raised TypeError.
Proof. reflexivity. Qed.


(** C1, as the code has it: invoked with a repayment date and an amount,
    the handler raises [TypeError] out of [user_ref.update], because the
    [payment_history] entry it builds holds the server-timestamp marker
    inside an array union, which the Firestore client refuses before it
    sends anything.  No record is written, no system message is appended,
    the tools stay as they were and no frame goes to the language model;
    the only event is the refused update. *)
Theorem commitment_update_is_refused
    self function_name tool_call_id args llm context result_callback w
    (d a : pyvalue) :
  args !! "repayment_date" = Some d ->
  args !! "amount" = Some a ->
  exists w' : World (FirestoreClient S),
    save_repayment_date self function_name tool_call_id args llm context
      result_callback w = (Raised TypeError, w')
    /\ heap w' = heap w
    /\ db w' = db w
    /\ trace w' = trace w ++
                  [ DbUpdate "users" (customer_id self)
                      (commitment_fields (overdue_amount self) d a d a)
                      false ].
Proof.
  intros Hd Ha.
  destruct (save_repayment_date_cases self function_name tool_call_id args
              llm context result_callback w) as (r & w' & Hrun & Hinv).
  destruct Hinv as [key Hkey Hnone | d0 a0 e Hd0 Ha0 Hs
                   | d0 a0 s' e Hd0 Ha0 Hs Hf
                   | d0 a0 s' shown Hd0 Ha0 Hs Hf m];
    try (rewrite commitment_is_refused in Hs; discriminate Hs).
  - destruct Hkey as [-> | ->]; congruence.
  - rewrite commitment_is_refused in Hs. injection Hs as <-.
    assert (d0 = d) as -> by congruence.
    assert (a0 = a) as -> by congruence.
    eexists. split; [exact Hrun|]. repeat split.
Qed.


End OnFirestore.

(* ===================================================================== *)
(** ** The model on concrete inputs *)
(* ===================================================================== *)

#[local] Existing Instance string_dates_runtime.
#[local] Existing Instance responsive_llm.

Example main_returns_the_context :
  fst (Main.main (boot bank_records)) = Returned the_context.
Proof. reflexivity. Qed.

Example started_context : heap started !! the_context = Some seeded_context.
Proof. reflexivity. Qed.

(** No amount: [KeyError] before anything is done. *)
Example call_without_amount :
  save_repayment_date registered_handler "save_repayment_date" "call_1"
    {[ "repayment_date" := PyStr "2025-03-01" ]} llm_service the_context
    result_callback_handle started
  = (Raised (KeyError "amount"), started).
Proof. reflexivity. Qed.

(** An amount that is a string: the update is sent as it is, then the
    f-string raises, with the context still as it was. *)
Example call_with_string_amount :
  let r := save_repayment_date registered_handler "save_repayment_date"
             "call_1"
             {[ "repayment_date" := PyStr "2025-03-01";
                "amount" := PyStr "five hundred" ]}
             llm_service the_context result_callback_handle started in
  fst r = Raised ValueError
  /\ db_updates (trace (snd r))
     = [ DbUpdate "users" "chad_bailey"
           (commitment_fields 25000%float (PyStr "2025-03-01")
              (PyStr "five hundred") (PyStr "2025-03-01")
              (PyStr "five hundred")) true ]
  /\ heap (snd r) !! the_context = Some seeded_context.
Proof. repeat split; reflexivity. Qed.

(** The specification's example (date 2025-03-01, amount 500.0, overdue
    amount 25000.00) on a store that takes every update, which the
    Firestore client does not, and with a language model that takes the
    frame. *)
Example example_call_on_permissive_store :
  exists (m : Message) (w' : World DocumentLog),
    save_repayment_date registered_handler "save_repayment_date" "call_1"
      example_args llm_service the_context result_callback_handle started
    = (Returned tt, w')
    /\ db w' !! ("users", "chad_bailey")
       = Some [ commitment_fields 25000%float (PyStr "2025-03-01")
                  (PyFloat 500%float) (PyStr "2025-03-01")
                  (PyFloat 500%float) ]
    /\ heap w' !! the_context
       = Some {| messages :=
                   [ {| role := "system";
                        content := system_prompt "Chad Bailey" 25000%float |};
                     m ];
                 tools := [] |}
    /\ mentions "2025-03-01" (content m)
    /\ mentions "500.00" (content m).
Proof.
  exists {| role := "system";
            content := closing_prompt "500.00" "2025-03-01" "500.00"
                         "2025-03-01" "2025-03-01" |}.
  eexists. split; [reflexivity|]. split; [reflexivity|].
  split; [reflexivity|].
  split; [apply closing_prompt_mentions_date
         | apply closing_prompt_mentions_amount].
Qed.

Example after_example_call_context :
  heap after_example_call !! the_context = Some used_context.
Proof. reflexivity. Qed.

(** The customer's document is missing: the store refuses, the call
    fails with the store's error and the context is untouched. *)
Lemma missing_document_aborts_call :
  exists w' : World DocumentLog,
    save_repayment_date registered_handler "save_repayment_date" "call_1"
      example_args llm_service the_context result_callback_handle
      started_without_document
    = (Raised (StoreError "NotFound"), w')
    /\ heap w' = heap started_without_document
    /\ db w' = ∅
    /\ List.filter is_process_frame (trace w') = [].
Proof.
  edestruct (storage_failure_aborts_invocation registered_handler
               "save_repayment_date" "call_1" example_args llm_service
               the_context result_callback_handle started_without_document
               (PyStr "2025-03-01") (PyFloat 500%float)
               (StoreError "NotFound"))
    as (w' & Hrun & Hheap & Hdb & _ & _ & Hframes);
    [reflexivity | reflexivity | reflexivity | ].
  exists w'. split; [exact Hrun|]. split; [exact Hheap|].
  split; [exact Hdb | exact Hframes].
Defined.

(** The constructor on a context that was just created. *)
Lemma constructor_on_new_context :
  exists (m : Message) (w' : World DocumentLog),
    CollectionProcessor_init the_context "chad_bailey" "Chad Bailey"
      25000%float (snd (new_context (boot bank_records)))
    = (Returned registered_handler, w')
    /\ heap w' !! the_context
       = Some {| messages := [m]; tools := [save_repayment_date_schema] |}
    /\ role m = "system"
    /\ db w' = bank_records.
Proof.
  edestruct (constructor_seeds_context the_context "chad_bailey"
               "Chad Bailey" 25000%float
               (snd (new_context (boot bank_records)))
               {| messages := []; tools := [] |})
    as (m & w' & Hrun & Hctx & Hrole & _ & _ & _ & Hdb & _);
    [reflexivity|].
  exists m, w'. split; [exact Hrun|]. split; [exact Hctx|].
  split; [exact Hrole | exact Hdb].
Defined.

(** After the example call the tool is gone for the rest of the call. *)
Lemma example_call_uses_up_tool :
  tools <$> heap (Main.serve the_context example_ending after_example_call)
            !! the_context = Some []
  /\ db_updates (trace (Main.serve the_context example_ending
                          after_example_call))
     = db_updates (trace after_example_call)
  /\ llm_contract the_context [example_call]
       (Main.serve the_context example_ending after_example_call) = false.
Proof.
  edestruct (tool_is_single_use the_context "save_repayment_date" "call_1"
               example_args registered_handler started after_example_call
               seeded_context example_ending)
    as (_ & Htools & _ & Hupd & _ & Hcall);
    [reflexivity | reflexivity | reflexivity | reflexivity | reflexivity | ].
  split; [|split; [exact Hupd | apply Hcall]].
  destruct (Htools example_ending [] (eq_sym (app_nil_r example_ending)))
    as (c2 & -> & Htools2).
  simpl. rewrite Htools2. reflexivity.
Defined.

(** A connect right after the example call. *)
Lemma connect_after_example_call :
  heap (snd (messages_clear the_context after_example_call)) !! the_context
  = Some {| messages := []; tools := [] |}
  /\ exists w' : World DocumentLog,
      Main.on_client_connected the_context websocket_transport 2
        after_example_call = (Returned tt, w')
      /\ heap w' !! the_context = Some seeded_context
      /\ dom (heap w') = dom (heap after_example_call).
Proof.
  edestruct (connect_resets_messages the_context 2 after_example_call
               used_context)
    as (Hclear & w' & Hrun & Hctx & Hdom & _);
    [reflexivity|].
  split; [exact Hclear|].
  exists w'. split; [exact Hrun|]. split; [exact Hctx | exact Hdom].
Defined.

(** The tool that the example call used up is back after the next
    connect. *)
Lemma tool_is_back_after_connect :
  tool_offered used_context "save_repayment_date" = false
  /\ exists (w' : World DocumentLog) (c' : OpenAILLMContext),
      Main.on_client_connected the_context websocket_transport 2
        after_example_call = (Returned tt, w')
      /\ heap w' !! the_context = Some c'
      /\ tool_offered c' "save_repayment_date" = true
      /\ llm_contract the_context [example_call] w' = true.
Proof.
  split; [reflexivity|].
  edestruct (connect_offers_tool_again the_context "chad_bailey"
               "Chad Bailey" 25000%float 2 after_example_call used_context)
    as (_ & w' & c' & Hrun & Hctx & _ & Hoffered & Hcall);
    [reflexivity|].
  exists w', c'. split; [exact Hrun|]. split; [exact Hctx|].
  split; [exact Hoffered | apply Hcall].
Defined.

(** Against C5 as stated: right after start-up the tool list holds the
    schema; clearing the messages, the first step of the connect handler,
    empties the message list and leaves that tool list in place.  And the
    two calls of a run connect, disconnect, connect are both handed the
    same context object: the process never has another one. *)
Lemma clearing_messages_keeps_tools :
  heap (snd (messages_clear the_context started)) !! the_context
  = Some {| messages := []; tools := [save_repayment_date_schema] |}
  /\ tools <$> heap (snd (messages_clear the_context started)) !! the_context
     <> Some []
  /\ List.filter is_queue_frames
       (trace (Main.serve the_context
                 [ClientConnected 1; ClientDisconnected 1; ClientConnected 2]
                 started))
     = [ TaskQueueFrames [OpenAILLMContextFrame the_context];
         TaskQueueFrames [EndFrame];
         TaskQueueFrames [OpenAILLMContextFrame the_context] ]
  /\ size (heap (Main.serve the_context
                   [ClientConnected 1; ClientDisconnected 1; ClientConnected 2]
                   started)) = 1.
Proof.
  split; [reflexivity|]. split; [discriminate|]. split; reflexivity.
Qed.

(** On the store without a client a promise of minus 500 goes through:
    the handler returns normally, the update with that amount accepted.
    Nothing in the handler looks at the sign. *)
Example negative_amount_on_permissive_store :
  PrimFloat.ltb 0%float (-500)%float = false
  /\ fst (save_repayment_date registered_handler "save_repayment_date"
            "call_1" negative_args llm_service the_context
            result_callback_handle started) = Returned tt
  /\ db (snd (save_repayment_date registered_handler "save_repayment_date"
                "call_1" negative_args llm_service the_context
                result_callback_handle started))
       !! ("users", "chad_bailey")
     = Some [ commitment_fields 25000%float (PyStr "2025-03-01")
                (PyFloat (-500)%float) (PyStr "2025-03-01")
                (PyFloat (-500)%float) ]
  /\ db_updates
       (trace (snd (save_repayment_date registered_handler
                      "save_repayment_date" "call_1" negative_args
                      llm_service the_context result_callback_handle
                      started)))
     = [ DbUpdate "users" "chad_bailey"
           (commitment_fields 25000%float (PyStr "2025-03-01")
              (PyFloat (-500)%float) (PyStr "2025-03-01")
              (PyFloat (-500)%float)) true ].
Proof. repeat split; reflexivity. Qed.

(** The handler has no guard of its own: called once more on the context
    the example call left behind, it sends a second update.  What keeps
    that from happening is the empty tool list and the model's contract. *)
Remark second_direct_invocation_writes_again :
  length <$> db (snd (save_repayment_date registered_handler
                        "save_repayment_date" "call_2" example_args
                        llm_service the_context result_callback_handle
                        after_example_call))
             !! ("users", "chad_bailey") = Some 2.
Proof. reflexivity. Qed.

(** No arguments at all: the key reported is [repayment_date], and nothing
    has happened. *)
Lemma call_without_arguments :
  save_repayment_date registered_handler "save_repayment_date" "call_1"
    (∅ : gmap string pyvalue) llm_service the_context
    result_callback_handle started
  = (Raised (KeyError "repayment_date"), started).
Proof.
  exact (missing_argument_key registered_handler "save_repayment_date"
           "call_1" ∅ llm_service the_context result_callback_handle
           started (or_introl eq_refl)).
Defined.

(** The example call with a language model that cannot be reached, on the
    store that takes every update: the handler raises the service's error
    with the closing message appended and the tools gone. *)
Lemma raise_at_the_await_keeps_the_work :
  fst (save_repayment_date (model := unreachable_llm) registered_handler
         "save_repayment_date" "call_1" example_args llm_service
         the_context result_callback_handle started)
  = Raised (ServiceError "language model unreachable")
  /\ llm_callbacks
       (snd (save_repayment_date (model := unreachable_llm)
               registered_handler "save_repayment_date" "call_1"
               example_args llm_service the_context result_callback_handle
               started))
     = llm_callbacks started
  /\ heap (snd (save_repayment_date (model := unreachable_llm)
                  registered_handler "save_repayment_date" "call_1"
                  example_args llm_service the_context
                  result_callback_handle started)) !! the_context
     = Some used_context.
Proof.
  destruct (failed_invocation_keeps_context (model := unreachable_llm)
              registered_handler "save_repayment_date" "call_1"
              example_args llm_service the_context result_callback_handle
              started (ServiceError "language model unreachable")
              (snd (save_repayment_date (model := unreachable_llm)
                      registered_handler "save_repayment_date" "call_1"
                      example_args llm_service the_context
                      result_callback_handle started)))
    as [Hcallbacks _]; [reflexivity|].
  split; [reflexivity|]. split; [exact Hcallbacks | reflexivity].
Defined.

(** The amount in words is stored, and the call fails. *)
Lemma amount_in_words_is_stored :
  exists w' : World DocumentLog,
    save_repayment_date registered_handler "save_repayment_date" "call_1"
      string_amount_args llm_service the_context result_callback_handle
      started = (Raised ValueError, w')
    /\ db w' !! ("users", "chad_bailey")
       = Some [ commitment_fields 25000%float (PyStr "2025-03-01")
                  (PyStr "five hundred") (PyStr "2025-03-01")
                  (PyStr "five hundred") ]
    /\ heap w' !! the_context = Some seeded_context.
Proof.
  edestruct (unformattable_amount_is_stored registered_handler
               "save_repayment_date" "call_1" string_amount_args
               llm_service the_context result_callback_handle started
               (PyStr "2025-03-01") (PyStr "five hundred"))
    as (w' & Hrun & Hdb & Hheap & _);
    [reflexivity | reflexivity | reflexivity | reflexivity | ].
  exists w'. split; [exact Hrun|].
  split; [rewrite Hdb; reflexivity | rewrite Hheap; reflexivity].
Defined.

(** The example call and its ending keep the first message and add
    two. *)
Lemma example_call_appends_messages :
  exists (c' : OpenAILLMContext) (more : list Message),
    heap (Main.serve the_context (example_call :: example_ending) started)
      !! the_context = Some c'
    /\ messages c' = messages seeded_context ++ more
    /\ length more = 2.
Proof.
  destruct (call_only_appends_messages the_context
              (example_call :: example_ending) started seeded_context)
    as (c' & more & Hc' & Hmessages & _); [reflexivity | reflexivity | ].
  exists c', more. split; [exact Hc'|]. split; [exact Hmessages|].
  assert (Hlen : length (messages c') = 3).
  { assert (Hsome : Some c' = Some {| messages := messages used_context ++
                       [ {| role := "assistant";
                            content := "Thank you." |} ];
                                      tools := [] |})
      by (rewrite <- Hc'; reflexivity).
    injection Hsome as ->. reflexivity. }
  rewrite Hmessages, length_app in Hlen. simpl in Hlen. lia.
Defined.

(** Two calls in which the tool is not used. *)
Lemma two_quiet_calls_keep_store :
  db (Main.serve the_context two_quiet_calls started) = bank_records
  /\ db_updates (trace (Main.serve the_context two_quiet_calls started)) = [].
Proof.
  destruct (run_without_calls_keeps_store the_context two_quiet_calls started)
    as [Hdb Hupd]; [reflexivity|].
  split; [rewrite Hdb; reflexivity | rewrite Hupd; reflexivity].
Defined.

(** The specification's example (date 2025-03-01, amount 500.0, overdue
    amount 25000.00) on the Firestore client: [TypeError], the document of
    chad_bailey untouched, the context still with its one message and its
    tool. *)
Lemma example_call_is_refused :
  exists w' : World (FirestoreClient DocumentLog),
    save_repayment_date registered_handler "save_repayment_date" "call_1"
      example_args llm_service the_context result_callback_handle
      started_on_firestore = (Raised TypeError, w')
    /\ backend (db w') !! ("users", "chad_bailey") = Some []
    /\ heap w' !! the_context = Some seeded_context
    /\ List.filter is_process_frame (trace w') = [].
Proof.
  destruct (commitment_update_is_refused registered_handler
              "save_repayment_date" "call_1" example_args llm_service
              the_context result_callback_handle started_on_firestore
              (PyStr "2025-03-01") (PyFloat 500%float))
    as (w' & Hrun & Hheap & Hdb & Htrace); [reflexivity | reflexivity | ].
  exists w'. split; [exact Hrun|].
  split; [rewrite Hdb; reflexivity|].
  split; [rewrite Hheap; reflexivity|].
  rewrite Htrace. reflexivity.
Defined.

